(** * Sunbeam (snap-microstack): step orchestration, error translation
      and convergence polling

    A shallow embedding of

    - [sunbeam/microstackd/service.py]  (the error translation of
      [BaseService._request]),
    - [sunbeam/commands/clusterd.py]    (the three cluster steps),
    - [sunbeam/commands/juju.py]        ([JujuHelper] and the juju steps),
    - [sunbeam/commands/bootstrap.py]   (the plan loop of [bootstrap]),
    - [sunbeam/commands/openstack.py]

    together with the properties of the specification that concern them.

    Python values are modelled by the types of the first section: a call
    that may raise returns an [outcome], an exception is a class and the
    text [str(e)] gives for it, [try]/[except] is a match on the class. *)

From stdpp Require Import base strings list gmap.
From Stdlib Require Import ZArith Lia Ascii.

Set Warnings "-register-all".

Local Open Scope string_scope.
Local Open Scope Z_scope.
Local Open Scope list_scope.

(** ** Python values *)

(** The exception classes the sources name, raise or can meet.  All of
    them derive from [Exception]: the classes that derive from
    [BaseException] only (an interrupt from outside, the cancellation
    of a task) are not modelled. *)
Inductive ExcClass :=
| Exception
| RemoteException
| NodeAlreadyExistsException
| NodeJoinException
| TokenAlreadyGeneratedException
| ClusterServiceUnavailableException
| HTTPError
| TerraformException
| CalledProcessError
| NameError
| AttributeError
| TypeError
| ValueError
| KeyError
| TimeoutError.

#[global] Instance ExcClass_eq_dec : EqDecision ExcClass.
Proof. solve_decision. Defined.

(** The direct base class. *)
Definition base_class (c : ExcClass) : option ExcClass :=
  match c with
  | Exception => None
  | NodeAlreadyExistsException | NodeJoinException
  | TokenAlreadyGeneratedException
  | ClusterServiceUnavailableException => Some RemoteException
  | _ => Some Exception
  end.

(** [issubclass c d]; the hierarchy is two levels deep. *)
Definition issubclass (c d : ExcClass) : bool :=
  bool_decide (c = d)
  || match base_class c with
     | None => false
     | Some c1 =>
         bool_decide (c1 = d)
         || match base_class c1 with
            | None => false
            | Some c2 => bool_decide (c2 = d)
            end
     end.

(** An exception object: its class and the text of [str(e)]. *)
Record Exc := MkExc { exc_class : ExcClass; exc_str : string }.

Definition isinstance (e : Exc) (c : ExcClass) : bool :=
  issubclass (exc_class e) c.

(** The result of a call: it returns a value or raises. *)
Inductive outcome (A : Type) :=
| Return (a : A)
| Raise (e : Exc).
Arguments Return {A} a.
Arguments Raise {A} e.

(** Decoded JSON, as [json.loads] returns it: a [dict] is kept as the
    list of its items. *)
Inductive Json :=
| JNull
| JBool (b : bool)
| JNum (n : Z)
| JStr (s : string)
| JArr (l : list Json)
| JObj (items : list (string * Json)).

(** ** Substring test: Python's [pat in s] on two [str] *)

Fixpoint startswith (pat s : string) : bool :=
  match pat, s with
  | EmptyString, _ => true
  | String a pat', String b s' => bool_decide (a = b) && startswith pat' s'
  | String _ _, EmptyString => false
  end.

Fixpoint str_contains (pat s : string) : bool :=
  startswith pat s
  || match s with
     | EmptyString => false
     | String _ s' => str_contains pat s'
     end.

(** ** sunbeam/microstackd/service.py *)

Module Service.

(** What [_request] uses of a [requests.Response]: whether
    [raise_for_status()] raises, and the decoding of the body
    ([json.loads(response.text)], the same as [response.json()]). *)
Record Response := {
  raise_for_status : outcome unit;
  body : outcome Json;
}.

(** [d.get("error")]: defined on a [dict] only; a missing key gives
    [None]. *)
Definition json_get (key : string) (j : Json) : outcome Json :=
  match j with
  | JObj items =>
      Return (match list_find (fun kv => kv.1 = key) items with
              | Some (_, (_, v)) => v
              | None => JNull
              end)
  | JNull => Raise (MkExc AttributeError "'NoneType' object has no attribute 'get'")
  | JBool _ => Raise (MkExc AttributeError "'bool' object has no attribute 'get'")
  | JNum _ => Raise (MkExc AttributeError "'int' object has no attribute 'get'")
  | JStr _ => Raise (MkExc AttributeError "'str' object has no attribute 'get'")
  | JArr _ => Raise (MkExc AttributeError "'list' object has no attribute 'get'")
  end.

(** [pat in error] for a [str] [pat]: a substring test on a [str],
    membership in a [list], key membership in a [dict], and a
    [TypeError] on the rest. *)
Definition py_in (pat : string) (error : Json) : outcome bool :=
  match error with
  | JStr s => Return (str_contains pat s)
  | JArr l =>
      Return (existsb (fun x => match x with
                                | JStr s => bool_decide (s = pat)
                                | _ => false
                                end) l)
  | JObj items => Return (existsb (fun kv => bool_decide (kv.1 = pat)) items)
  | JNull => Raise (MkExc TypeError "argument of type 'NoneType' is not iterable")
  | JBool _ => Raise (MkExc TypeError "argument of type 'bool' is not iterable")
  | JNum _ => Raise (MkExc TypeError "argument of type 'int' is not iterable")
  end.

(** The body of the [except HTTPError as e] clause, after [error] has
    been read: the [if]/[elif] chain, then [raise e]. *)
Definition translate_error {A} (e : Exc) (error : Json) : outcome A :=
  match py_in "remote with name" error with
  | Raise x => Raise x
  | Return true =>
      Raise (MkExc NodeAlreadyExistsException
                   "Already node exists in the microstack cluster")
  | Return false =>
  match py_in "Failed to join cluster with the given join token" error with
  | Raise x => Raise x
  | Return true =>
      Raise (MkExc NodeJoinException
                   "Join node to cluster failed with the given token")
  | Return false =>
  match py_in "UNIQUE constraint failed: internal_token_records.name" error with
  | Raise x => Raise x
  | Return true =>
      Raise (MkExc TokenAlreadyGeneratedException
                   "Token already generated for the node")
  | Return false =>
  match py_in "Daemon not yet initialized" error with
  | Raise x => Raise x
  | Return true =>
      Raise (MkExc ClusterServiceUnavailableException
                   "Microstack Cluster not initialized")
  | Return false => Raise e
  end end end end.

(** [BaseService._request], from the response on. *)
Definition _request (response : Response) : outcome Json :=
  match raise_for_status response with
  | Return _ => body response
  | Raise e =>
      if isinstance e HTTPError then
        match body response with
        | Raise x => Raise x
        | Return j =>
            match json_get "error" j with
            | Raise x => Raise x
            | Return error => translate_error e error
            end
        end
      else Raise e
  end.

(** The translation table in the words of the specification: the
    substring looked for and the fault it maps to, in order. *)
Definition error_table : list (string * Exc) :=
  [ ("remote with name",
     MkExc NodeAlreadyExistsException
           "Already node exists in the microstack cluster");
    ("Failed to join cluster with the given join token",
     MkExc NodeJoinException
           "Join node to cluster failed with the given token");
    ("UNIQUE constraint failed: internal_token_records.name",
     MkExc TokenAlreadyGeneratedException
           "Token already generated for the node");
    ("Daemon not yet initialized",
     MkExc ClusterServiceUnavailableException
           "Microstack Cluster not initialized") ].

(** First rule of a table whose substring occurs in [error]; the raw
    error [e] when there is none. *)
Fixpoint first_match (table : list (string * Exc)) (e : Exc)
         (error : string) : Exc :=
  match table with
  | [] => e
  | (pat, fault) :: rest =>
      if str_contains pat error then fault else first_match rest e error
  end.

End Service.

(** ** sunbeam/jobs/common.py (not in the sources at hand) *)

(** Modelled from the spec: [ResultType] and [Result] of
    [sunbeam.jobs.common], a tagged outcome of a Step, one of COMPLETED,
    SKIPPED, FAILED, carrying an optional message or payload.  The
    sources build it as [Result(result_type, message)] with [message]
    left out ([None]), a [str] or a list of [str], and read
    [result.result_type] and [result.message]. *)
Inductive ResultType := COMPLETED | SKIPPED | FAILED.

#[global] Instance ResultType_eq_dec : EqDecision ResultType.
Proof. solve_decision. Defined.

Inductive Message :=
| MNone
| MStr (s : string)
| MList (l : list string).

Record Result := MkResult { result_type : ResultType; message : Message }.

(** ** sunbeam/commands/clusterd.py *)

Module Clusterd.

(** Modelled from the spec: the calls the steps make on
    [sunbeam.microstackd.client.Client().cluster], each with what it
    does: it returns or raises one of the faults of [service.py].  A
    member of the list [get_cluster_members] returns is a [dict],
    here a [gmap string string]. *)
Record Client := {
  get_cluster_members : outcome (list (gmap string string));
  (** [bootstrap(name, address)] *)
  bootstrap : string -> string -> outcome unit;
  (** [add_node(name, role)], which returns the token *)
  add_node : string -> string -> outcome string;
  (** [join_node(name, address, token)] *)
  join_node : string -> string -> string -> outcome unit;
}.

(** [member_names = [member.get('name') for member in members]] *)
Definition member_names (members : list (gmap string string))
  : list (option string) :=
  map (fun member : gmap string string => member !! "name") members.

(** The body the three [is_skip] have in common, for the name [who]
    each looks for. *)
Definition membership_is_skip (client : Client) (who : string)
  : outcome bool :=
  match get_cluster_members client with
  | Return members =>
      if bool_decide (Some who ∈ member_names members) then Return true
      else Return false
  | Raise e =>
      if isinstance e ClusterServiceUnavailableException then Return false
      else Raise e
  end.

(** [self.port] is 7000 in both steps that have it, so the address
    [f"{self.ip}:{self.port}"] is [ip] followed by [":7000"]. *)
Definition address_of (ip : string) : string := ip +:+ ":7000".

Record ClusterInitStep := {
  init_client : Client;
  init_fqdn : string;
  init_ip : string;
}.

(** [ClusterInitStep.is_skip] *)
Definition ClusterInitStep_is_skip (self : ClusterInitStep) : outcome bool :=
  membership_is_skip (init_client self) (init_fqdn self).

(** [ClusterInitStep.run] *)
Definition ClusterInitStep_run (self : ClusterInitStep) : outcome Result :=
  match bootstrap (init_client self) (init_fqdn self)
                  (address_of (init_ip self)) with
  | Return _ => Return (MkResult COMPLETED MNone)
  | Raise e =>
      if isinstance e Exception
      then Return (MkResult FAILED (MStr (exc_str e)))
      else Raise e
  end.

Record ClusterAddNodeStep := {
  add_client : Client;
  node_name : string;
  role : string;
}.

(** [ClusterAddNodeStep.is_skip] *)
Definition ClusterAddNodeStep_is_skip (self : ClusterAddNodeStep)
  : outcome bool :=
  membership_is_skip (add_client self) (node_name self).

(** [ClusterAddNodeStep.run] *)
Definition ClusterAddNodeStep_run (self : ClusterAddNodeStep)
  : outcome Result :=
  match add_node (add_client self) (node_name self) (role self) with
  | Return token => Return (MkResult COMPLETED (MStr token))
  | Raise e =>
      if isinstance e TokenAlreadyGeneratedException
      then Return (MkResult FAILED (MStr (exc_str e)))
      else Raise e
  end.

Record ClusterJoinNodeStep := {
  join_client : Client;
  join_token : string;
  join_fqdn : string;
  join_ip : string;
}.

(** [ClusterJoinNodeStep.is_skip] *)
Definition ClusterJoinNodeStep_is_skip (self : ClusterJoinNodeStep)
  : outcome bool :=
  membership_is_skip (join_client self) (join_fqdn self).

(** [ClusterJoinNodeStep.run].  After [join_node] returns,
    [message=token] reads the name [token], which is bound neither
    in [run] nor in the module: the lookup raises [NameError] inside
    the [try], and the [except] clause names only the two join
    faults. *)
Definition ClusterJoinNodeStep_run (self : ClusterJoinNodeStep)
  : outcome Result :=
  let handler (e : Exc) : outcome Result :=
    if isinstance e NodeAlreadyExistsException
       || isinstance e NodeJoinException
    then Return (MkResult FAILED (MStr (exc_str e)))
    else Raise e in
  match join_node (join_client self) (join_fqdn self)
                  (address_of (join_ip self)) (join_token self) with
  | Return _ => handler (MkExc NameError "name 'token' is not defined")
  | Raise e => handler e
  end.

End Clusterd.

(** ** sunbeam/commands/juju.py: [JujuHelper] *)

Module Juju.

(** A [juju.controller.Controller()] object. *)
Inductive Controller := ControllerObject.

(** What the helper does to the outside, in order. *)
Inductive Event :=
| Connect                          (* controller.connect() *)
| Disconnect                       (* controller.disconnect() *)
| AddModel (model : string)        (* controller.add_model(model) *)
| GetModel (model : string)        (* controller.get_model(model) *)
| DestroyModels (model : string)   (* controller.destroy_models(model, ...) *)
| ListModels                       (* controller.list_models() *)
| Sleep (seconds : Z).             (* asyncio.sleep(seconds) *)

#[global] Instance Event_eq_dec : EqDecision Event.
Proof. solve_decision. Defined.

(** The controller, the clock and the models behind it, call by call:
    what each awaited call of the library does. *)
Record Env := {
  connect : outcome unit;
  disconnect : outcome unit;
  add_model_call : string -> outcome unit;
  get_model : string -> outcome unit;
  destroy_models : string -> outcome unit;
  (** the [n]-th call of [controller.list_models()], from 0 *)
  list_models : nat -> outcome (list string);
  (** [model.deploy(...)] followed by [model.block_until(...)] *)
  deploy_and_block : string -> string -> outcome unit;
  (** [model.block_until(...)] of [wait_until_active] *)
  block_until_active : string -> outcome unit;
  (** [model.get_status()] *)
  get_status : string -> outcome string;
  (** [model.applications] of a model when [get_model_status] looks
      at it: application name to [app_data.status]; index 0 is the
      moment [apps] is taken, index [n] the look after the [n]-th
      sleep of the call *)
  applications : string -> nat -> gmap string string;
  (** [int(time.time() - start)] as read after the [n]-th sleep *)
  elapsed : nat -> Z;
}.

(** The [JujuHelper] object ([self.controller]), the count of
    [list_models] calls made, and the events so far. *)
Record State := {
  controller : option Controller;
  list_calls : nat;
  events : list Event;
}.

(** [JujuHelper.__init__] *)
Definition JujuHelper : State :=
  {| controller := None; list_calls := 0%nat; events := [] |}.

Definition M (A : Type) : Type := State -> outcome A * State.

Definition ret {A} (a : A) : M A := fun s => (Return a, s).

Definition bind {A B} (m : M A) (k : A -> M B) : M B :=
  fun s => match m s with
           | (Return a, s') => k a s'
           | (Raise e, s') => (Raise e, s')
           end.

(** An awaited library call: the event, then what the call does. *)
Definition await {A} (ev : Event) (o : outcome A) : M A :=
  fun s => (o, {| controller := controller s;
                  list_calls := list_calls s;
                  events := events s ++ [ev] |}).

(** [try: body / except cls as e: handler e] *)
Definition try_except {A} (body : M A) (cls : ExcClass)
           (handler : Exc -> M A) : M A :=
  fun s => match body s with
           | (Raise e, s') =>
               if isinstance e cls then handler e s' else (Raise e, s')
           | r => r
           end.

Declare Scope py_scope.
Delimit Scope py_scope with py.
Notation "x <- m ;; k" := (bind m (fun x => k))
  (at level 100, m at next level, right associativity) : py_scope.
Notation "m ;; k" := (bind m (fun _ => k))
  (at level 100, right associativity) : py_scope.
Local Open Scope py_scope.

Section WithEnv.
Variable env : Env.

(** [if not self.controller: self.controller = Controller();
    await self.controller.connect()].  The attribute is set before
    the connection is awaited. *)
Definition ensure_controller : M unit :=
  fun s => match controller s with
           | Some _ => (Return tt, s)
           | None =>
               await Connect (connect env)
                     {| controller := Some ControllerObject;
                        list_calls := list_calls s;
                        events := events s |}
           end.

(** [JujuHelper.disconnect_controller] *)
Definition disconnect_controller : M unit :=
  fun s => match controller s with
           | Some _ => await Disconnect (disconnect env) s
           | None =>
               (Raise (MkExc AttributeError
                         "'NoneType' object has no attribute 'disconnect'"),
                s)
           end.

(** [JujuHelper.add_model] *)
Definition add_model (model : string) : M bool :=
  try_except
    (ensure_controller ;;
     await (AddModel model) (add_model_call env model) ;;
     ret true)
    Exception (fun _ => ret false).

(** [controller.list_models()]: the next call of the count. *)
Definition controller_list_models : M (list string) :=
  fun s => await ListModels (list_models env (list_calls s))
                 {| controller := controller s;
                    list_calls := S (list_calls s);
                    events := events s |}.

(** [JujuHelper.get_models] *)
Definition get_models : M (list string) :=
  try_except
    (ensure_controller ;;
     models <- controller_list_models ;;
     ret models)
    Exception (fun _ => ret []).

(** [JujuHelper.get_model_status_full] *)
Definition get_model_status_full (model : string) (timeout : Z)
  : M string :=
  ensure_controller ;;
  await (GetModel model) (get_model env model) ;;
  status <- (fun s => (get_status env model, s)) ;;
  ret status.

(** One pass of [for application in apps] at the look [n]. *)
Definition look (model : string) (n : nat)
           (acc : gmap string string * gset string)
           (application : string) : gmap string string * gset string :=
  match applications env model n !! application with
  | Some status =>
      (<[application := status]> acc.1,
       if bool_decide (status = "active")
       then {[application]} ∪ acc.2 else acc.2)
  | None => acc
  end.

(** The [while True] loop of [get_model_status], entered for its
    [n]-th iteration with [apps_status] and [apps_active] as they
    are; [fuel] bounds the iterations looked at.  It gives the
    final [apps_status] and the number of sleeps made, or [None]
    when the loop is still running after [fuel] iterations. *)
Fixpoint poll_loop (fuel : nat) (model : string) (timeout : Z)
         (apps : gset string) (n : nat)
         (apps_status : gmap string string) (apps_active : gset string)
  : option (gmap string string * nat) :=
  match fuel with
  | O => None
  | S fuel' =>
      let timed_out := bool_decide (elapsed env n > timeout) in
      let acc := foldl (look model n) (apps_status, apps_active)
                       (elements apps) in
      if bool_decide (size apps = size acc.2) then Some (acc.1, n)
      else if timed_out then Some (acc.1, n)
      else poll_loop fuel' model timeout apps (S n) acc.1 acc.2
  end.

(** [JujuHelper.get_model_status].  [None]: still polling after
    [fuel] iterations. *)
Definition get_model_status (fuel : nat) (model : string) (timeout : Z)
  : State -> option (outcome (gmap string string) * State) :=
  fun s =>
    match (ensure_controller ;;
           await (GetModel model) (get_model env model)) s with
    | (Raise e, s1) =>
        if isinstance e Exception then Some (Return ∅, s1)
        else Some (Raise e, s1)
    | (Return _, s1) =>
        let apps := dom (applications env model 0) in
        match poll_loop fuel model timeout apps 1 ∅ ∅ with
        | None => None
        | Some (apps_status, sleeps) =>
            Some (Return apps_status,
                  {| controller := controller s1;
                     list_calls := list_calls s1;
                     events := events s1 ++ replicate sleeps (Sleep 1) |})
        end
    end.

(** [JujuHelper.deploy_bundle] *)
Definition deploy_bundle (model bundle : string) : M bool :=
  try_except
    (ensure_controller ;;
     await (GetModel model) (get_model env model) ;;
     (fun s => (deploy_and_block env model bundle, s)) ;;
     ret true)
    Exception (fun _ => ret false).

(** [JujuHelper.wait_until_active] *)
Definition wait_until_active (model : string) : M unit :=
  ensure_controller ;;
  await (GetModel model) (get_model env model) ;;
  (fun s => (block_until_active env model, s)).

(** [for i in range(0, 30): ... else: return False] with [n]
    iterations left. *)
Fixpoint wait_removed (n : nat) (model_name : string) : M bool :=
  match n with
  | O => ret false
  | S n' =>
      models <- get_models ;;
      if bool_decide (model_name ∉ models) then ret true
      else await (Sleep 10) (Return tt) ;; wait_removed n' model_name
  end.

(** [JujuHelper.destroy_model] *)
Definition destroy_model (model_name : string) (wait : bool) : M bool :=
  try_except
    (ensure_controller ;;
     await (DestroyModels model_name) (destroy_models env model_name) ;;
     if wait then wait_removed 30 model_name else ret true)
    Exception (fun _ => ret false).

End WithEnv.

End Juju.

(** ** sunbeam/commands/juju.py: the steps *)

Module JujuSteps.
Import Juju.
Local Open Scope py_scope.

(** The machine the command runs on: the juju binary and the
    processes and files the steps start and write. *)
Record Host := {
  juju_binary : string;
  (** [snap.config.get("snap.channel.juju")] *)
  juju_channel : string;
  (** [self._juju_cmd("clouds")]: cloud name to its details *)
  juju_clouds : outcome (list (string * gmap string string));
  (** [subprocess.run(cmd, ..., check=True)] *)
  subprocess_run : list string -> outcome unit;
  (** [json.loads(_status.to_json())], [open] and [json.dump] *)
  dump_status : string -> string -> outcome unit;
  (** [open(file_path, "wb")] and [subprocess.check_call(cmd, stdout=f)] *)
  check_call_to_file : list string -> string -> outcome unit;
}.

(** [apps_status.items()]: the entries of the mapping in the order in
    which their keys were first stored, which is the order in which
    [for application in apps] of [get_model_status] goes through a
    [set] of [str].  Python does not fix that order (it changes with
    the hash seed of the process), so it is given from outside: any
    listing of the entries, each once. *)
Record ItemsOrder := {
  items_of : gmap string string -> list (string * string);
  items_of_perm : forall m, items_of m ≡ₚ map_to_list m;
}.

Section WithEnv.
Variable env : Env.
Variable host : Host.

(** [JujuStepHelper.check_model_present] *)
Definition check_model_present (model_name : string) : M bool :=
  models <- get_models env ;;
  ret (bool_decide (model_name ∈ models)).

(** The [for name, details in clouds.items()] loop: the names whose
    [details["type"]] is ["k8s"]; a [KeyError] without the key. *)
Fixpoint k8s_clouds_of (clouds : list (string * gmap string string))
  : outcome (list string) :=
  match clouds with
  | [] => Return []
  | (name, details) :: rest =>
      match details !! "type" with
      | None => Raise (MkExc KeyError "'type'")
      | Some ty =>
          match k8s_clouds_of rest with
          | Raise e => Raise e
          | Return names =>
              Return (if bool_decide (ty = "k8s") then name :: names
                      else names)
          end
      end
  end.

(** [BootstrapJujuStep.run] *)
Definition BootstrapJujuStep_run (cloud : string) : outcome Result :=
  let body : outcome Result :=
    match juju_clouds host with
    | Raise e => Raise e
    | Return clouds =>
    match k8s_clouds_of clouds with
    | Raise e => Raise e
    | Return k8s_clouds =>
        if bool_decide (k8s_clouds = []) then
          Return (MkResult FAILED
                    (MStr "Could not find any k8s clouds to bootstrap"))
        else if bool_decide (cloud ∉ k8s_clouds) then
          Return (MkResult FAILED
                    (MStr ("Could not find " +:+ cloud
                           +:+ " cloud to bootstrap")))
        else
          let cmd := ([juju_binary host; "bootstrap"; cloud]
                      ++ (if startswith "2.9" (juju_channel host)
                          then ["--agent-version"; "2.9.34"]
                          else []))%list in
          match subprocess_run host cmd with
          | Raise e => Raise e
          | Return _ => Return (MkResult COMPLETED MNone)
          end
    end end in
  match body with
  | Raise e =>
      if isinstance e CalledProcessError
      then Return (MkResult FAILED (MStr (exc_str e)))
      else Raise e
  | r => r
  end.

(** [CreateModelStep.is_skip] *)
Definition CreateModelStep_is_skip (model : string) : M bool :=
  check_model_present model.

(** [CreateModelStep.run] *)
Definition CreateModelStep_run (model : string) : M Result :=
  result <- add_model env model ;;
  if result : bool then ret (MkResult COMPLETED MNone)
  else ret (MkResult FAILED (MStr ("Error in creation of model " +:+ model))).

(** [DeployBundleStep.is_skip]: [all_active] is the [for] loop over
    [apps_status.items()]. *)
Definition DeployBundleStep_is_skip (fuel : nat) (model : string)
  : State -> option (outcome bool * State) :=
  fun s =>
    match get_model_status env fuel model 0 s with
    | None => None
    | Some (Raise e, s') => Some (Raise e, s')
    | Some (Return apps_status, s') =>
        if bool_decide (apps_status = ∅) then Some (Return false, s')
        else
          Some (Return (forallb (fun kv => bool_decide (kv.2 = "active"))
                                (map_to_list apps_status)), s')
    end.

(** [DeployBundleStep.run]; [name] is the bundle name, which
    [__init__] stores over the step's own name. *)
Definition DeployBundleStep_run (model bundle name : string) : M Result :=
  result <- deploy_bundle env model bundle ;;
  if result : bool then ret (MkResult COMPLETED MNone)
  else ret (MkResult FAILED (MStr ("Error deploying bundle " +:+ name))).

(** [DestroyModelStep.is_skip] *)
Definition DestroyModelStep_is_skip (model : string) : M bool :=
  present <- check_model_present model ;;
  ret (negb present).

(** [DestroyModelStep.run] *)
Definition DestroyModelStep_run (model : string) : M Result :=
  result <- destroy_model env model true ;;
  if result : bool then ret (MkResult COMPLETED MNone)
  else ret (MkResult FAILED (MStr "Error destroying model")).

(** [ModelStatusStep.is_skip] *)
Definition ModelStatusStep_is_skip (model : string) : M bool :=
  present <- check_model_present model ;;
  ret (negb present).

(** [ModelStatusStep.run].  [None]: [get_model_status] still
    polling after [fuel] iterations.  The lines follow the order of
    [apps_status.items()]. *)
Definition ModelStatusStep_run (order : ItemsOrder) (fuel : nat)
           (model : string) (timeout : Z)
  : State -> option (outcome Result * State) :=
  fun s =>
    match get_model_status env fuel model timeout s with
    | None => None
    | Some (Raise e, s') =>
        if isinstance e Exception
        then Some (Return (MkResult FAILED (MStr (exc_str e))), s')
        else Some (Raise e, s')
    | Some (Return apps_status, s') =>
        let status_message :=
          map (fun kv : string * string =>
                 "App " +:+ kv.1 +:+ " is in " +:+ kv.2 +:+ " state")
              (items_of order apps_status) in
        Some (Return (MkResult COMPLETED (MList status_message)), s')
    end.

(** [WriteModelStatusStep.run] *)
Definition WriteModelStatusStep_run (model file_path : string)
           (timeout : Z) : M Result :=
  try_except
    (_status <- get_model_status_full env model timeout ;;
     (fun s => (dump_status host _status file_path, s)) ;;
     ret (MkResult COMPLETED (MStr "Inspecting Model Status")))
    Exception (fun e => ret (MkResult FAILED (MStr (exc_str e)))).

(** [WriteCharmLog.run] *)
Definition WriteCharmLog_run (model file_path : string) : outcome Result :=
  let cmd := [juju_binary host; "debug-log"; "--model"; model;
              "--replay"; "--no-tail"] in
  match check_call_to_file host cmd file_path with
  | Raise e =>
      if isinstance e CalledProcessError
      then Return (MkResult FAILED (MStr (exc_str e)))
      else Raise e
  | Return _ => Return (MkResult COMPLETED (MStr "Inspecting Charm Log"))
  end.

End WithEnv.

End JujuSteps.

(** ** sunbeam/commands/openstack.py *)

Module Openstack.

(** [DeployControlPlaneStep.run] of [openstack.py].  The argument
    [self.bundle] is read before [JujuHelper.deploy_bundle] is
    called, and [__init__] sets [bundle_dir], not [bundle]: reading
    it raises.  The lines after the call are kept as they are
    written. *)
Definition DeployControlPlaneStep_run (model bundle_dir : string)
  : outcome Result :=
  let deploy_bundle : outcome bool :=
    Raise (MkExc AttributeError
             "'DeployControlPlaneStep' object has no attribute 'bundle'") in
  match deploy_bundle with
  | Raise e => Raise e
  | Return true => Return (MkResult COMPLETED MNone)
  | Return false =>
      Return (MkResult FAILED (MStr "Error in deploygin openstack apps"))
  end.

End Openstack.

(** ** sunbeam/commands/bootstrap.py *)

Module Bootstrap.

(** Modelled from the spec: the [ResultType] member as the f-string
    of the "Finished running step" line shows it; the enumeration is
    declared in [sunbeam.jobs.common]. *)
Definition ResultType_str (t : ResultType) : string :=
  match t with
  | COMPLETED => "ResultType.COMPLETED"
  | SKIPPED => "ResultType.SKIPPED"
  | FAILED => "ResultType.FAILED"
  end.

(** What the plan loop does, in order.  The two calls are tagged with
    the position of the step in the plan and carry what the call
    did. *)
Inductive Event :=
| LogDebug (text : string)                   (* LOG.debug(text) *)
| ConsolePrint (text : string)               (* console.print(text) *)
| ClickEcho (text : string)                  (* click.echo(text) *)
| IsSkip (i : nat) (o : outcome bool)        (* plan[i].is_skip() *)
| Run (i : nat) (o : outcome Result).        (* plan[i].run() *)

(** The position of the step an event calls. *)
Definition called_step (ev : Event) : option nat :=
  match ev with
  | IsSkip i _ | Run i _ => Some i
  | LogDebug _ | ConsolePrint _ | ClickEcho _ => None
  end.

(** How the command ends: it returns, it raises
    [click.ClickException(message)], or another exception leaves
    it. *)
Inductive Ending :=
| Returned
| ClickException (message : Message)
| Uncaught (e : Exc).

Section Runner.
(** The state of everything the steps act on. *)
Context {W : Type}.

(** Modelled from the spec: a Step as [sunbeam.jobs.common.BaseStep]
    declares it and as the loop uses it: [name], [description],
    the skip check and the action. *)
Record Step := {
  name : string;
  description : string;
  is_skip : W -> outcome bool * W;
  run : W -> outcome Result * W;
}.

(** The [for step in plan] loop of [bootstrap], from the step at
    position [i] on; [msg] is the loop's variable [message]. *)
Fixpoint run_plan_from (i : nat) (plan : list Step) (w : W)
  : Ending * W * list Event :=
  match plan with
  | [] => (Returned, w, [])
  | step :: rest =>
      let starting := LogDebug ("Starting step " +:+ name step) in
      let msg := description step +:+ " ... " in
      match is_skip step w with
      | (Raise e, w1) => (Uncaught e, w1, [starting; IsSkip i (Raise e)])
      | (Return true, w1) =>
          let '(ending, w2, t) := run_plan_from (S i) rest w1 in
          (ending, w2,
           [starting; IsSkip i (Return true);
            LogDebug ("Skipping step " +:+ name step);
            ConsolePrint (msg +:+ "[green]done[/green]")] ++ t)
      | (Return false, w1) =>
          let running := LogDebug ("Running step " +:+ name step) in
          match run step w1 with
          | (Raise e, w2) =>
              (Uncaught e, w2,
               [starting; IsSkip i (Return false); running;
                Run i (Raise e)])
          | (Return result, w2) =>
              let finished :=
                LogDebug ("Finished running step " +:+ name step
                          +:+ ". Result: "
                          +:+ ResultType_str (result_type result)) in
              if bool_decide (result_type result = FAILED) then
                (ClickException (message result), w2,
                 [starting; IsSkip i (Return false); running;
                  Run i (Return result); finished;
                  ConsolePrint (msg +:+ "[red]failed[/red]")])
              else
                let '(ending, w3, t) := run_plan_from (S i) rest w2 in
                (ending, w3,
                 [starting; IsSkip i (Return false); running;
                  Run i (Return result); finished;
                  ConsolePrint (msg +:+ "[green]done[/green]")] ++ t)
          end
      end
  end.

Definition run_plan (plan : list Step) (w : W)
  : Ending * W * list Event :=
  run_plan_from 0 plan w.

(** The lines the loop writes for the step at position [i], by
    name, to state what a trace holds. *)
Definition starting_line (step : Step) : Event :=
  LogDebug ("Starting step " +:+ name step).

Definition skipping_line (step : Step) : Event :=
  LogDebug ("Skipping step " +:+ name step).

Definition running_line (step : Step) : Event :=
  LogDebug ("Running step " +:+ name step).

Definition finished_line (step : Step) (result : Result) : Event :=
  LogDebug ("Finished running step " +:+ name step +:+ ". Result: "
            +:+ ResultType_str (result_type result)).

Definition done_line (step : Step) : Event :=
  ConsolePrint ((description step +:+ " ... ") +:+ "[green]done[/green]").

Definition failed_line (step : Step) : Event :=
  ConsolePrint ((description step +:+ " ... ") +:+ "[red]failed[/red]").

End Runner.
Arguments Step W : clear implicits.

(** Modelled from the spec: what [DeployControlPlaneStep.run] calls
    of [sunbeam.commands.terraform.TerraformHelper]. *)
Record TerraformHelper := {
  write_tfvars : string -> string -> outcome unit;
  apply : outcome unit;
}.

(** [DeployControlPlaneStep.run] of [bootstrap.py] *)
Definition DeployControlPlaneStep_run (env : Juju.Env)
           (tfhelper : TerraformHelper) (model cloud : string)
  : Juju.M Result :=
  fun s =>
    match write_tfvars tfhelper model cloud with
    | Raise e => (Raise e, s)
    | Return _ =>
        Juju.try_except
          (Juju.bind (fun s => (apply tfhelper, s)) (fun _ =>
           Juju.bind (Juju.wait_until_active env model) (fun _ =>
           Juju.ret (MkResult COMPLETED MNone))))
          TerraformException
          (fun e => Juju.ret (MkResult FAILED (MStr (exc_str e))))
          s
    end.

(** [bootstrap], from the plan loop on: the loop over [plan], whose
    steps share the helper and act on its state, then [click.echo]
    and [jhelper.disconnect_controller()]. *)
Definition bootstrap (env : Juju.Env) (role : string)
           (plan : list (Step Juju.State)) (s : Juju.State)
  : Ending * Juju.State * list Event :=
  match run_plan plan s with
  | (Returned, s1, t) =>
      let echo :=
        ClickEcho ("Node has been bootstrapped as a " +:+ role +:+ " node") in
      match Juju.disconnect_controller env s1 with
      | (Return _, s2) => (Returned, s2, t ++ [echo])
      | (Raise e, s2) => (Uncaught e, s2, t ++ [echo])
      end
  | r => r
  end.

(** The run of [bootstrap] ends with [disconnect_controller()]: the
    call is made on the state the plan loop leaves, and how it ends
    is how the command ends. *)
Definition ends_with_disconnect (env : Juju.Env) (role : string)
           (plan : list (Step Juju.State)) (s : Juju.State) : Prop :=
  exists ending s1 t o s2,
    run_plan plan s = (ending, s1, t)
    /\ Juju.disconnect_controller env s1 = (o, s2)
    /\ bootstrap env role plan s
       = (match o with Return _ => Returned | Raise e => Uncaught e end,
          s2,
          t ++ [ClickEcho ("Node has been bootstrapped as a " +:+ role
                           +:+ " node")]).

End Bootstrap.

(** ** The cluster steps as steps of a plan *)

Module Steps.
Import Clusterd Bootstrap.

(** The cluster steps touch nothing but the client, so they fit a
    plan over any state [W]; [name] and [description] are the two
    arguments of [super().__init__]. *)
Definition of_ClusterInitStep {W} (self : ClusterInitStep) : Step W :=
  {| name := "Bootstrap Cluster";
     description := "Bootstrapping microstack cluster";
     is_skip := fun w => (ClusterInitStep_is_skip self, w);
     run := fun w => (ClusterInitStep_run self, w) |}.

Definition of_ClusterAddNodeStep {W} (self : ClusterAddNodeStep) : Step W :=
  {| name := "Add Node Cluster";
     description := "Generate token for new node to add to cluster";
     is_skip := fun w => (ClusterAddNodeStep_is_skip self, w);
     run := fun w => (ClusterAddNodeStep_run self, w) |}.

Definition of_ClusterJoinNodeStep {W} (self : ClusterJoinNodeStep) : Step W :=
  {| name := "Join node to Cluster";
     description := "Join node to microstack cluster";
     is_skip := fun w => (ClusterJoinNodeStep_is_skip self, w);
     run := fun w => (ClusterJoinNodeStep_run self, w) |}.

(** [CreateModelStep] over the state of the helper it shares. *)
Definition of_CreateModelStep (env : Juju.Env) (model : string)
  : Step Juju.State :=
  {| name := "Create model";
     description := "Creating " +:+ model +:+ " model";
     is_skip := JujuSteps.CreateModelStep_is_skip env model;
     run := JujuSteps.CreateModelStep_run env model |}.

End Steps.

(** ** What a call of the helper shows *)

Module Observed.
Import Juju.

(** What the [k]-th [get_models()] gives once [self.controller] is
    set: the list of [list_models()], or [[]] when that raises. *)
Definition models_seen (env : Env) (k : nat) : list string :=
  match list_models env k with
  | Return models => models
  | Raise _ => []
  end.

(** [j] rounds of the wait of [destroy_model]: a look at the list of
    models, then a sleep of 10. *)
Definition rounds (j : nat) : list Event :=
  concat (replicate j [ListModels; Sleep 10]).

(** The state [j] looks at the list later, with the events [evs]
    added. *)
Definition later (s : State) (j : nat) (evs : list Event) : State :=
  {| controller := controller s;
     list_calls := list_calls s + j;
     events := events s ++ evs |}.

(** [destroy_model] up to the request: the connection on first use
    and [controller.destroy_models(...)]. *)
Definition request_destroy (env : Env) (model_name : string) : M unit :=
  bind (ensure_controller env)
       (fun _ => await (DestroyModels model_name)
                       (destroy_models env model_name)).

(** [get_model_status] up to the loop: the connection on first use
    and [controller.get_model(model)]. *)
Definition request_model (env : Env) (model : string) : M unit :=
  bind (ensure_controller env)
       (fun _ => await (GetModel model) (get_model env model)).

(** The status last seen for an application in the looks 1 to [n]. *)
Fixpoint last_seen (env : Env) (model : string) (n : nat) (a : string)
  : option string :=
  match n with
  | O => None
  | S n' =>
      match applications env model n !! a with
      | Some status => Some status
      | None => last_seen env model n' a
      end
  end.

(** Every application known at the start has shown "active" at one
    of the looks 1 to [n]. *)
Definition all_seen_active (env : Env) (model : string) (n : nat) : Prop :=
  forall a, a ∈ dom (applications env model 0) ->
            exists j, (1 <= j <= n)%nat
                      /\ applications env model j !! a = Some "active".

(** What [apps_status] holds after [n] looks: for the applications
    known at the start, the status last seen. *)
Definition status_after (env : Env) (model : string) (n : nat)
           (apps_status : gmap string string) : Prop :=
  forall a, apps_status !! a
            = if decide (a ∈ dom (applications env model 0))
              then last_seen env model n a else None.

(** What the loop of [get_model_status] holds after [n] looks:
    [apps_status] as above, and in [apps_active] the applications
    that have shown "active" at one of the looks. *)
Definition looked (env : Env) (model : string) (n : nat)
           (apps_status : gmap string string) (apps_active : gset string)
  : Prop :=
  status_after env model n apps_status
  /\ (forall a, a ∈ apps_active <->
                a ∈ dom (applications env model 0)
                /\ exists j, (1 <= j <= n)%nat
                             /\ applications env model j !! a = Some "active").

(** The loop of [get_model_status] leaves at the look [n]. *)
Definition stops_at (env : Env) (model : string) (timeout : Z) (n : nat)
  : Prop :=
  all_seen_active env model n \/ elapsed env n > timeout.

End Observed.

(** ** Faults with a description, results with a message *)

(** What a call raises, if it raises, has a description: [str(e)] is
    not empty. *)
Definition described {A} (o : outcome A) : Prop :=
  forall e, o = Raise e -> exc_str e <> EmptyString.

(** A FAILED result, if that is what comes back, carries a message
    that is a string and is not empty. *)
Definition failed_with_message (o : outcome Result) : Prop :=
  forall r, o = Return r -> result_type r = FAILED ->
            exists text, message r = MStr text /\ text <> EmptyString.

(** What a computation of the helper raises has a description. *)
Definition raises_described {A} (m : Juju.M A) : Prop :=
  forall s e s1, m s = (Raise e, s1) -> exc_str e <> EmptyString.

Definition client_described (client : Clusterd.Client) : Prop :=
  described (Clusterd.get_cluster_members client)
  /\ (forall name address, described (Clusterd.bootstrap client name address))
  /\ (forall name role, described (Clusterd.add_node client name role))
  /\ (forall name address token,
        described (Clusterd.join_node client name address token)).

Definition env_described (env : Juju.Env) : Prop :=
  described (Juju.connect env)
  /\ (forall model, described (Juju.get_model env model))
  /\ (forall model, described (Juju.get_status env model))
  /\ (forall model, described (Juju.block_until_active env model)).

Definition host_described (host : JujuSteps.Host) : Prop :=
  described (JujuSteps.juju_clouds host)
  /\ (forall cmd, described (JujuSteps.subprocess_run host cmd))
  /\ (forall status file_path,
        described (JujuSteps.dump_status host status file_path))
  /\ (forall cmd file_path,
        described (JujuSteps.check_call_to_file host cmd file_path)).

Definition terraform_described (tfhelper : Bootstrap.TerraformHelper) : Prop :=
  (forall model cloud, described (Bootstrap.write_tfvars tfhelper model cloud))
  /\ described (Bootstrap.apply tfhelper).

(** ** Sample daemons, clients and steps *)

Module Examples.
Import Service Clusterd.

(** The daemon refuses a join whose text holds the substrings of the
    first and of the second rule. *)
Definition http_500 : Exc :=
  MkExc HTTPError "500 Server Error: Internal Server Error for url: cluster/1.0/cluster".

Definition join_conflict_text : string :=
  "Failed to join cluster with the given join token: remote with name node-b exists".

Definition join_conflict_response : Response :=
  {| raise_for_status := Raise http_500;
     body := Return (JObj [("type", JStr "error");
                           ("error", JStr join_conflict_text)]) |}.

(** A daemon that has not been initialized yet. *)
Definition cold_response : Response :=
  {| raise_for_status := Raise http_500;
     body := Return (JObj [("type", JStr "error");
                           ("error", JStr "Daemon not yet initialized")]) |}.

(** A daemon that has already minted a token for the name. *)
Definition token_taken_response : Response :=
  {| raise_for_status := Raise http_500;
     body := Return (JObj [("type", JStr "error");
                           ("error",
                            JStr "UNIQUE constraint failed: internal_token_records.name")]) |}.

(** A client whose every request gets the same [response]: each call
    goes through [_request] and raises what it raises; [value] is
    what the call returns otherwise. *)
Definition via_request {A} (response : Response) (value : A) : outcome A :=
  match _request response with
  | Return _ => Return value
  | Raise e => Raise e
  end.

Definition client_of (response : Response) : Client :=
  {| get_cluster_members := via_request response [];
     bootstrap := fun _ _ => via_request response tt;
     add_node := fun _ _ => via_request response "TOKEN";
     join_node := fun _ _ _ => via_request response tt |}.

(** A daemon that accepts whatever it is asked; [node-a] is its only
    member. *)
Definition ok_response : Response :=
  {| raise_for_status := Return tt; body := Return (JObj []) |}.

Definition willing_client : Client :=
  {| get_cluster_members := Return [ {[ "name" := "node-a" ]} ];
     bootstrap := fun _ _ => via_request ok_response tt;
     add_node := fun _ _ => via_request ok_response "TOKEN";
     join_node := fun _ _ _ => via_request ok_response tt |}.

(** A daemon that fails with a text no rule knows. *)
Definition unknown_response : Response :=
  {| raise_for_status := Raise http_500;
     body := Return (JObj [("error", JStr "database is locked")]) |}.

Definition init_cold : ClusterInitStep :=
  {| init_client := client_of cold_response;
     init_fqdn := "node-a"; init_ip := "10.0.0.5" |}.

Definition add_cold : ClusterAddNodeStep :=
  {| add_client := client_of cold_response;
     node_name := "node-b"; role := "compute" |}.

Definition join_cold : ClusterJoinNodeStep :=
  {| join_client := client_of cold_response; join_token := "TOKEN";
     join_fqdn := "node-b"; join_ip := "10.0.0.6" |}.

(** A daemon with the member [node-a] that has already minted a
    token for the name asked for. *)
Definition minted_client : Client :=
  {| get_cluster_members := Return [ {[ "name" := "node-a" ]} ];
     bootstrap := fun _ _ => via_request ok_response tt;
     add_node := fun _ _ => via_request token_taken_response "TOKEN";
     join_node := fun _ _ _ => via_request ok_response tt |}.

Definition add_again : ClusterAddNodeStep :=
  {| add_client := minted_client;
     node_name := "node-b"; role := "compute" |}.

(** A daemon with the member [node-a] that fails to mint a token
    with a text no rule knows. *)
Definition locked_client : Client :=
  {| get_cluster_members := Return [ {[ "name" := "node-a" ]} ];
     bootstrap := fun _ _ => via_request ok_response tt;
     add_node := fun _ _ => via_request unknown_response "TOKEN";
     join_node := fun _ _ _ => via_request ok_response tt |}.

Definition add_unknown : ClusterAddNodeStep :=
  {| add_client := locked_client;
     node_name := "node-b"; role := "compute" |}.

Definition join_willing : ClusterJoinNodeStep :=
  {| join_client := willing_client; join_token := "TOKEN";
     join_fqdn := "node-b"; join_ip := "10.0.0.6" |}.

Definition init_member : ClusterInitStep :=
  {| init_client := willing_client;
     init_fqdn := "node-a"; init_ip := "10.0.0.5" |}.

(** A controller that answers every call; [models k] is what its
    [k]-th [list_models()] returns, [apps] what the applications of
    a model show at each look; the clock advances by one unit per
    sleep. *)
Definition controller_env (add : string -> outcome unit)
           (models : nat -> outcome (list string))
           (apps : string -> nat -> gmap string string) : Juju.Env :=
  {| Juju.connect := Return tt;
     Juju.disconnect := Return tt;
     Juju.add_model_call := add;
     Juju.get_model := fun _ => Return tt;
     Juju.destroy_models := fun _ => Return tt;
     Juju.list_models := models;
     Juju.deploy_and_block := fun _ _ => Return tt;
     Juju.block_until_active := fun _ => Return tt;
     Juju.get_status := fun _ => Return "{}";
     Juju.applications := apps;
     Juju.elapsed := fun n => Z.of_nat n |}.

(** The model is gone at the third look at the list. *)
Definition removing_env : Juju.Env :=
  controller_env (fun _ => Return tt)
    (fun k => if bool_decide (k < 2)%nat
              then Return ["controller"; "openstack"]
              else Return ["controller"])
    (fun _ _ => ∅).

(** The model never goes. *)
Definition stuck_env : Juju.Env :=
  controller_env (fun _ => Return tt)
    (fun _ => Return ["controller"; "openstack"])
    (fun _ _ => ∅).

(** [keystone] waits for ever, [mysql] is active from the second
    look on. *)
Definition waiting_env : Juju.Env :=
  controller_env (fun _ => Return tt)
    (fun _ => Return ["controller"; "openstack"])
    (fun _ n => {[ "keystone" := "waiting";
                   "mysql" := if bool_decide (2 <= n)%nat
                              then "active" else "maintenance" ]}).

(** The connection to the controller times out: [connect()] raises
    a [TimeoutError] made without arguments. *)
Definition timing_out_env : Juju.Env :=
  {| Juju.connect := Raise (MkExc TimeoutError EmptyString);
     Juju.disconnect := Return tt;
     Juju.add_model_call := fun _ => Return tt;
     Juju.get_model := fun _ => Return tt;
     Juju.destroy_models := fun _ => Return tt;
     Juju.list_models := fun _ => Return [];
     Juju.deploy_and_block := fun _ _ => Return tt;
     Juju.block_until_active := fun _ => Return tt;
     Juju.get_status := fun _ => Return "{}";
     Juju.applications := fun _ _ => ∅;
     Juju.elapsed := fun n => Z.of_nat n |}.

(** The controller refuses to add a model. *)
Definition refusing_env : Juju.Env :=
  controller_env (fun _ => Raise (MkExc Exception "model already exists"))
    (fun _ => Return ["controller"])
    (fun _ _ => ∅).

(** A daemon whose [bootstrap] fails with an exception raised
    without arguments: [str(e)] is empty. *)
Definition silent_client : Client :=
  {| get_cluster_members := Return [];
     bootstrap := fun _ _ => Raise (MkExc Exception EmptyString);
     add_node := fun _ _ => via_request ok_response "TOKEN";
     join_node := fun _ _ _ => via_request ok_response tt |}.

Definition init_silent : ClusterInitStep :=
  {| init_client := silent_client;
     init_fqdn := "node-a"; init_ip := "10.0.0.5" |}.

(** A machine where juju knows one k8s cloud and every process
    succeeds; a terraform that applies. *)
Definition sample_host : JujuSteps.Host :=
  {| JujuSteps.juju_binary := "/snap/microstack/current/juju/bin/juju";
     JujuSteps.juju_channel := "3.1/candidate";
     JujuSteps.juju_clouds :=
       Return [("microk8s", {[ "type" := "k8s" ]})];
     JujuSteps.subprocess_run := fun _ => Return tt;
     JujuSteps.dump_status := fun _ _ => Return tt;
     JujuSteps.check_call_to_file := fun _ _ => Return tt |}.

Definition sample_tfhelper : Bootstrap.TerraformHelper :=
  {| Bootstrap.write_tfvars := fun _ _ => Return tt;
     Bootstrap.apply :=
       Raise (MkExc TerraformException "terraform apply failed") |}.

(** A plan whose only step fails: the model cannot be added. *)
Definition refused_plan : list (Bootstrap.Step Juju.State) :=
  [ Steps.of_CreateModelStep refusing_env "openstack" ].

(** A plan whose only step is skipped and never touches the
    helper. *)
Definition member_plan : list (Bootstrap.Step Juju.State) :=
  [ Steps.of_ClusterInitStep init_member ].

(** A plan of three steps: the first is skipped, the second fails,
    the third would raise. *)
Definition sample_plan : list (Bootstrap.Step unit) :=
  [ Steps.of_ClusterInitStep init_member;
    Steps.of_ClusterAddNodeStep add_again;
    Steps.of_ClusterJoinNodeStep join_willing ].

End Examples.

(** ** sunbeam/commands/juju.py: the rest of the helper and of the steps *)

Module JujuMore.
Import Juju JujuSteps.
Local Open Scope py_scope.

(** [channel.split("/")[0]]: the text before the first ["/"]. *)
Fixpoint first_segment (channel : string) : string :=
  match channel with
  | EmptyString => EmptyString
  | String c rest =>
      if bool_decide (c = "/"%char) then EmptyString
      else String c (first_segment rest)
  end.

(** [EnsureJujuInstalled._is_classic] *)
Definition _is_classic (channel : string) : bool :=
  startswith "2.9" (first_segment channel).

(** The second [for name, details in controllers.items()] loop of
    [BootstrapJujuStep.is_skip]: the names whose [details["cloud"]] is
    one of [k8s_clouds]; a [KeyError] without the key. *)
Fixpoint existing_controllers_of (k8s_clouds : list string)
         (controllers : list (string * gmap string string))
  : outcome (list string) :=
  match controllers with
  | [] => Return []
  | (name, details) :: rest =>
      match details !! "cloud" with
      | None => Raise (MkExc KeyError "'cloud'")
      | Some cloud =>
          match existing_controllers_of k8s_clouds rest with
          | Raise e => Raise e
          | Return names =>
              Return (if bool_decide (cloud ∈ k8s_clouds) then name :: names
                      else names)
          end
      end
  end.

(** [BootstrapJujuStep.is_skip].  [juju_controllers] is what
    [self._juju_cmd("controllers")] does, read through
    [.get("controllers", {})]: [None] when the key is not there;
    [controller_name] is [self.controller_name], which the method may
    set.  It gives what the method returns and the attribute after
    it. *)
Definition BootstrapJujuStep_is_skip (host : Host)
           (juju_controllers :
              outcome (option (list (string * gmap string string))))
           (controller_name : option string)
  : outcome bool * option string :=
  let body : outcome bool * option string :=
    match juju_clouds host with
    | Raise e => (Raise e, controller_name)
    | Return clouds =>
    match k8s_clouds_of clouds with
    | Raise e => (Raise e, controller_name)
    | Return k8s_clouds =>
    match juju_controllers with
    | Raise e => (Raise e, controller_name)
    | Return found =>
        let controllers := default [] found in
        if bool_decide (controllers = []) then (Return false, controller_name)
        else
          match existing_controllers_of k8s_clouds controllers with
          | Raise e => (Raise e, controller_name)
          | Return [] => (Return false, controller_name)
          | Return (first :: _) => (Return true, Some first)
          end
    end end end in
  match body with
  | (Raise e, name) =>
      if isinstance e CalledProcessError then (Return false, name)
      else (Raise e, name)
  | r => r
  end.

(** What [run_action] asks of the model: the units of an application
    and what each call on a unit does. *)
Record Actions := {
  (** the unit names of [model.applications.get(app, None).units];
      [None] when the application is not there *)
  units : string -> string -> option (list string);
  (** [unit.is_leader_from_status()] *)
  is_leader_from_status : string -> outcome bool;
  (** [leader_unit.run_action(action_name, **action_params)], then
      [action.wait()] and [result.results] *)
  run_unit_action :
    string -> string -> gmap string string -> outcome (gmap string string);
}.

(** The [for unit in application.units] loop, which breaks at the
    first leader. *)
Fixpoint find_leader (actions : Actions) (us : list string)
  : outcome (option string) :=
  match us with
  | [] => Return None
  | unit :: rest =>
      match is_leader_from_status actions unit with
      | Raise e => Raise e
      | Return true => Return (Some unit)
      | Return false => find_leader actions rest
      end
  end.

(** [JujuHelper.run_action]; both [except] clauses only log, and
    [action_result] is still [{}] when they are reached. *)
Definition run_action (env : Env) (actions : Actions)
           (model app action_name : string)
           (action_params : gmap string string)
  : M (gmap string string) :=
  try_except
    (ensure_controller env ;;
     await (GetModel model) (get_model env model) ;;
     match units actions model app with
     | None =>
         (fun s => (Raise (MkExc AttributeError
                             "'NoneType' object has no attribute 'units'"), s))
     | Some us =>
         leader_unit <- (fun s => (find_leader actions us, s)) ;;
         match leader_unit with
         | None => ret ∅
         | Some unit =>
             action_result <-
               (fun s => (run_unit_action actions unit action_name
                                          action_params, s)) ;;
             ret action_result
         end
     end)
    Exception (fun _ => ret ∅).

(** [WriteModelStatusStep.is_skip] *)
Definition WriteModelStatusStep_is_skip (env : Env) (model : string)
  : M bool :=
  present <- check_model_present env model ;;
  ret (negb present).

(** [WriteCharmLog.is_skip] *)
Definition WriteCharmLog_is_skip (env : Env) (model : string) : M bool :=
  present <- check_model_present env model ;;
  ret (negb present).

End JujuMore.

(** ** sunbeam/commands/bootstrap.py: the pre-flight checks *)

Module Preflight.

(** What the loop over the checks does, in order. *)
Inductive Event :=
| LogDebug (text : string)                   (* LOG.debug(text) *)
| ConsolePrint (text : string)               (* console.print(text) *)
| CheckRun (i : nat) (o : outcome bool).     (* preflight_checks[i].run() *)

Section Checks.
(** The state of what the checks look at. *)
Context {W : Type}.

(** Modelled from the spec: a check as the loop uses it (the classes
    are in [sunbeam.jobs.checks]): [name], [description], [run()],
    which answers with a truth value, and [message], read after
    [run()]. *)
Record Check := {
  name : string;
  description : string;
  run : W -> outcome bool * W;
  message : W -> Message;
}.

(** The [for check in preflight_checks] loop of [bootstrap], from the
    check at position [i] on; [msg] is the loop's variable
    [message]. *)
Fixpoint run_checks_from (i : nat) (checks : list Check) (w : W)
  : Bootstrap.Ending * W * list Event :=
  match checks with
  | [] => (Bootstrap.Returned, w, [])
  | check :: rest =>
      let starting :=
        LogDebug ("Starting pre-flight check " +:+ name check) in
      let msg := description check +:+ " ... " in
      match run check w with
      | (Raise e, w1) =>
          (Bootstrap.Uncaught e, w1, [starting; CheckRun i (Raise e)])
      | (Return true, w1) =>
          let '(ending, w2, t) := run_checks_from (S i) rest w1 in
          (ending, w2,
           [starting; CheckRun i (Return true);
            ConsolePrint (msg +:+ "[green]done[/green]")] ++ t)
      | (Return false, w1) =>
          (Bootstrap.ClickException (message check w1), w1,
           [starting; CheckRun i (Return false);
            ConsolePrint (msg +:+ "[red]failed[/red]");
            ConsolePrint EmptyString])
      end
  end.

Definition run_checks (checks : list Check) (w : W)
  : Bootstrap.Ending * W * list Event :=
  run_checks_from 0 checks w.

(** [bootstrap] from the checks on: the loop over the checks, then
    [jhelper = juju.JujuHelper()], the plan and its loop. *)
Definition bootstrap_from_checks (checks : list Check) (w : W)
           (env : Juju.Env) (role : string)
           (plan : list (Bootstrap.Step Juju.State))
  : Bootstrap.Ending * W * list Event
    * option (Juju.State * list Bootstrap.Event) :=
  match run_checks checks w with
  | (Bootstrap.Returned, w1, t) =>
      let '(ending, s, t') :=
        Bootstrap.bootstrap env role plan Juju.JujuHelper in
      (ending, w1, t, Some (s, t'))
  | (ending, w1, t) => (ending, w1, t, None)
  end.

End Checks.
Arguments Check W : clear implicits.

End Preflight.

(** ** What a trace of the plan loop shows on the console *)

Module Traces.

(** The texts of the [console.print] calls of a trace, in order. *)
Definition console_lines (t : list Bootstrap.Event) : list string :=
  omap (fun ev => match ev with
                  | Bootstrap.ConsolePrint text => Some text
                  | _ => None
                  end) t.

(** The console line of a step that is done, and of one that
    failed. *)
Definition done_text {W} (step : Bootstrap.Step W) : string :=
  (Bootstrap.description step +:+ " ... ") +:+ "[green]done[/green]".

Definition failed_text {W} (step : Bootstrap.Step W) : string :=
  (Bootstrap.description step +:+ " ... ") +:+ "[red]failed[/red]".

(** The event carries the tag SKIPPED: a result of that type, or a
    line that names it. *)
Definition mentions_skipped (ev : Bootstrap.Event) : bool :=
  match ev with
  | Bootstrap.LogDebug text | Bootstrap.ConsolePrint text
  | Bootstrap.ClickEcho text => str_contains "SKIPPED" text
  | Bootstrap.Run _ (Return r) => bool_decide (result_type r = SKIPPED)
  | _ => false
  end.

End Traces.

(** ** More sample inputs *)

Module MoreExamples.
Import Service.

(** An error response whose body has no [error] field. *)
Definition bare_error_response : Response :=
  {| raise_for_status := Raise Examples.http_500;
     body := Return (JObj [("type", JStr "error")]) |}.

(** An error response whose body is a JSON string. *)
Definition text_error_response : Response :=
  {| raise_for_status := Raise Examples.http_500;
     body := Return (JStr "Internal Server Error") |}.

(** A node that asks to join while the daemon already lists it. *)
Definition join_conflict : Clusterd.ClusterJoinNodeStep :=
  {| Clusterd.join_client := Examples.client_of Examples.join_conflict_response;
     Clusterd.join_token := "TOKEN";
     Clusterd.join_fqdn := "node-b"; Clusterd.join_ip := "10.0.0.6" |}.

(** A node the daemon does not list yet, and a plan of two steps: the
    first is skipped, the second runs and completes. *)
Definition init_fresh : Clusterd.ClusterInitStep :=
  {| Clusterd.init_client := Examples.willing_client;
     Clusterd.init_fqdn := "node-c"; Clusterd.init_ip := "10.0.0.7" |}.

Definition fresh_plan : list (Bootstrap.Step unit) :=
  [ Steps.of_ClusterInitStep Examples.init_member;
    Steps.of_ClusterInitStep init_fresh ].

(** An order of [items()]: the entries by their keys. *)
Definition key_order : JujuSteps.ItemsOrder :=
  {| JujuSteps.items_of := map_to_list;
     JujuSteps.items_of_perm := fun m => Permutation_refl (map_to_list m) |}.

(** A controller that cannot be reached: [connect()] raises. *)
Definition unreachable_env : Juju.Env :=
  {| Juju.connect := Raise (MkExc Exception "connection refused");
     Juju.disconnect := Return tt;
     Juju.add_model_call := fun _ => Return tt;
     Juju.get_model := fun _ => Return tt;
     Juju.destroy_models := fun _ => Return tt;
     Juju.list_models := fun _ => Return ["controller"; "openstack"];
     Juju.deploy_and_block := fun _ _ => Return tt;
     Juju.block_until_active := fun _ => Return tt;
     Juju.get_status := fun _ => Return "{}";
     Juju.applications := fun _ _ => ∅;
     Juju.elapsed := fun n => Z.of_nat n |}.

(** A machine on which juju lists a cloud without a [type], after a
    k8s cloud. *)
Definition untyped_host : JujuSteps.Host :=
  {| JujuSteps.juju_binary := "/snap/microstack/current/juju/bin/juju";
     JujuSteps.juju_channel := "2.9/stable";
     JujuSteps.juju_clouds :=
       Return [("microk8s", {[ "type" := "k8s" ]});
               ("broken", {[ "description" := "no type here" ]})];
     JujuSteps.subprocess_run := fun _ => Return tt;
     JujuSteps.dump_status := fun _ _ => Return tt;
     JujuSteps.check_call_to_file := fun _ _ => Return tt |}.

(** A machine on which juju knows a k8s cloud and an lxd cloud. *)
Definition two_cloud_host : JujuSteps.Host :=
  {| JujuSteps.juju_binary := "/snap/microstack/current/juju/bin/juju";
     JujuSteps.juju_channel := "2.9/stable";
     JujuSteps.juju_clouds :=
       Return [("localhost", {[ "type" := "lxd" ]});
               ("microk8s", {[ "type" := "k8s" ]})];
     JujuSteps.subprocess_run := fun _ => Return tt;
     JujuSteps.dump_status := fun _ _ => Return tt;
     JujuSteps.check_call_to_file := fun _ _ => Return tt |}.

(** Two controllers, the second on the k8s cloud. *)
Definition two_controllers
  : outcome (option (list (string * gmap string string))) :=
  Return (Some [("lxd-controller", {[ "cloud" := "localhost" ]});
                ("k8s-controller", {[ "cloud" := "microk8s" ]})]).

(** An application with three units, the second of which is the
    leader; asking the third raises. *)
Definition keystone_actions : JujuMore.Actions :=
  {| JujuMore.units := fun _ app =>
       if bool_decide (app = "keystone")
       then Some ["keystone/0"; "keystone/1"; "keystone/2"] else None;
     JujuMore.is_leader_from_status := fun unit =>
       if bool_decide (unit = "keystone/2")
       then Raise (MkExc Exception "unit is gone")
       else Return (bool_decide (unit = "keystone/1"));
     JujuMore.run_unit_action := fun unit action _ =>
       Return {[ "unit" := unit; "action" := action ]} |}.

(** Two pre-flight checks on a machine without the juju snap: the
    first passes, the second does not. *)
Definition snap_checks : list (Preflight.Check unit) :=
  [ {| Preflight.name := "Check for microk8s snap";
       Preflight.description := "Checking for presence of microk8s";
       Preflight.run := fun w => (Return true, w);
       Preflight.message := fun _ => MNone |};
    {| Preflight.name := "Check for juju snap";
       Preflight.description := "Checking for presence of Juju";
       Preflight.run := fun w => (Return false, w);
       Preflight.message := fun _ => MStr "Juju snap not detected" |} ].

End MoreExamples.

(** * Properties *)


(** ** Substrings *)




(** ** Error translation ([service.py]) *)

Section ErrorTranslation.
Import Service.

(** The [if]/[elif] chain on a [str] is the first match of the
    table. *)
Lemma translate_error_table {A} e s :
  @translate_error A e (JStr s) = Raise (first_match error_table e s).
Proof.
  unfold translate_error, error_table, first_match, py_in.
  repeat (match goal with
          | |- context [str_contains ?p s] => destruct (str_contains p s)
          end; try reflexivity).
Qed.






End ErrorTranslation.

(** ** The cluster steps ([clusterd.py]) *)

Section ClusterSteps.
Import Clusterd.

Lemma membership_is_skip_unavailable client who e :
  get_cluster_members client = Raise e ->
  isinstance e ClusterServiceUnavailableException = true ->
  membership_is_skip client who = Return false.
Proof. intros Hprobe Hcls. unfold membership_is_skip. by rewrite Hprobe, Hcls. Qed.

(** C5.  When [get_cluster_members()] raises
    [ClusterServiceUnavailableException] inside [is_skip], each of
    [ClusterInitStep], [ClusterAddNodeStep] and
    [ClusterJoinNodeStep] returns [False]; it does not raise. *)
Theorem is_skip_false_when_service_unavailable e :
  isinstance e ClusterServiceUnavailableException = true ->
  (forall self : ClusterInitStep,
      get_cluster_members (init_client self) = Raise e ->
      ClusterInitStep_is_skip self = Return false)
  /\ (forall self : ClusterAddNodeStep,
      get_cluster_members (add_client self) = Raise e ->
      ClusterAddNodeStep_is_skip self = Return false)
  /\ (forall self : ClusterJoinNodeStep,
      get_cluster_members (join_client self) = Raise e ->
      ClusterJoinNodeStep_is_skip self = Return false).
Proof.
  intros Hcls. repeat split; intros self Hprobe;
    by eapply membership_is_skip_unavailable.
Qed.

Lemma is_skip_false_when_service_unavailable_witness :
  ClusterInitStep_is_skip Examples.init_cold = Return false
  /\ ClusterAddNodeStep_is_skip Examples.add_cold = Return false
  /\ ClusterJoinNodeStep_is_skip Examples.join_cold = Return false.
Proof.
  pose proof (is_skip_false_when_service_unavailable
                (MkExc ClusterServiceUnavailableException
                       "Microstack Cluster not initialized") eq_refl)
    as (Hinit & Hadd & Hjoin).
  split; [|split].
  - apply Hinit. vm_compute. reflexivity.
  - apply Hadd. vm_compute. reflexivity.
  - apply Hjoin. vm_compute. reflexivity.
Defined.

(** C6.  When [add_node] raises [TokenAlreadyGeneratedException],
    [ClusterAddNodeStep.run] returns a FAILED [Result] whose message
    is [str(e)], the description of the fault; nothing is raised. *)
Theorem add_node_token_already_generated_failed self e :
  add_node (add_client self) (node_name self) (role self) = Raise e ->
  isinstance e TokenAlreadyGeneratedException = true ->
  ClusterAddNodeStep_run self = Return (MkResult FAILED (MStr (exc_str e))).
Proof.
  intros Hadd Hcls. unfold ClusterAddNodeStep_run. by rewrite Hadd, Hcls.
Qed.

Lemma add_node_token_already_generated_failed_witness :
  ClusterAddNodeStep_run Examples.add_again
  = Return (MkResult FAILED (MStr "Token already generated for the node")).
Proof.
  apply (add_node_token_already_generated_failed Examples.add_again
           (MkExc TokenAlreadyGeneratedException
                  "Token already generated for the node")).
  - vm_compute. reflexivity.
  - reflexivity.
Defined.

(** [ClusterJoinNodeStep.run] raises [NameError] whenever the join
    itself went through. *)
Lemma join_run_after_join self :
  join_node (join_client self) (join_fqdn self)
            (address_of (join_ip self)) (join_token self) = Return tt ->
  ClusterJoinNodeStep_run self
  = Raise (MkExc NameError "name 'token' is not defined").
Proof. intros Hjoin. unfold ClusterJoinNodeStep_run. by rewrite Hjoin. Qed.

(** [ClusterAddNodeStep.run] lets every fault but
    [TokenAlreadyGeneratedException] through. *)
Lemma add_run_other_fault self e :
  add_node (add_client self) (node_name self) (role self) = Raise e ->
  isinstance e TokenAlreadyGeneratedException = false ->
  ClusterAddNodeStep_run self = Raise e.
Proof.
  intros Hadd Hcls. unfold ClusterAddNodeStep_run. by rewrite Hadd, Hcls.
Qed.

End ClusterSteps.

(** ** The plan loop ([bootstrap.py]) *)

Section PlanRunner.
Import Bootstrap.
Context {W : Type}.
Implicit Types (plan rest : list (Step W)) (step : Step W) (w : W).
Implicit Types (t : list Event) (ending : Ending).

(** One turn of the loop, case by case. *)
Lemma run_plan_from_cons k step rest w ending w' t :
  run_plan_from k (step :: rest) w = (ending, w', t) ->
  (exists e, is_skip step w = (Raise e, w')
             /\ ending = Uncaught e
             /\ t = [starting_line step; IsSkip k (Raise e)])
  \/ (exists w1 t', is_skip step w = (Return true, w1)
             /\ run_plan_from (S k) rest w1 = (ending, w', t')
             /\ t = [starting_line step; IsSkip k (Return true);
                     skipping_line step; done_line step] ++ t')
  \/ (exists w1 e, is_skip step w = (Return false, w1)
             /\ run step w1 = (Raise e, w')
             /\ ending = Uncaught e
             /\ t = [starting_line step; IsSkip k (Return false);
                     running_line step; Run k (Raise e)])
  \/ (exists w1 result, is_skip step w = (Return false, w1)
             /\ run step w1 = (Return result, w')
             /\ result_type result = FAILED
             /\ ending = ClickException (message result)
             /\ t = [starting_line step; IsSkip k (Return false);
                     running_line step; Run k (Return result);
                     finished_line step result; failed_line step])
  \/ (exists w1 w2 result t', is_skip step w = (Return false, w1)
             /\ run step w1 = (Return result, w2)
             /\ result_type result <> FAILED
             /\ run_plan_from (S k) rest w2 = (ending, w', t')
             /\ t = [starting_line step; IsSkip k (Return false);
                     running_line step; Run k (Return result);
                     finished_line step result; done_line step] ++ t').
Proof.
  simpl. destruct (is_skip step w) as [[[|]|e] w1] eqn:Hskip.
  - destruct (run_plan_from (S k) rest w1) as [[ending1 w2] t'] eqn:Hrest.
    intros [= <- <- <-]. right; left. by exists w1, t'.
  - destruct (run step w1) as [[result|e] w2] eqn:Hrun.
    + case_bool_decide as Hfailed.
      * intros [= <- <- <-]. do 3 right; left. by exists w1, result.
      * destruct (run_plan_from (S k) rest w2) as [[ending1 w3] t'] eqn:Hrest.
        intros [= <- <- <-]. do 4 right. by exists w1, w2, result, t'.
    + intros [= <- <- <-]. do 2 right; left. by exists w1, e.
  - intros [= <- <- <-]. left. by exists e.
Qed.

Ltac in_cases H :=
  repeat (apply elem_of_cons in H as [H | H]);
  try (by apply elem_of_nil in H).

Ltac plan_cases H :=
  apply run_plan_from_cons in H
    as [(?e & ?Hskip & -> & ->)
       | [(?w1 & ?t' & ?Hskip & ?Hrest & ->)
         | [(?w1 & ?e & ?Hskip & ?Hrun & -> & ->)
           | [(?w1 & ?r & ?Hskip & ?Hrun & ?Hfailed & -> & ->)
             | (?w1 & ?w2 & ?r & ?t' & ?Hskip & ?Hrun & ?Hfailed
                & ?Hrest & ->)]]]].

(** The calls of a run that starts at position [k] are calls of the
    positions from [k] on. *)
Lemma called_step_from plan : forall k w ending w' t,
  run_plan_from k plan w = (ending, w', t) ->
  forall ev j, ev ∈ t -> called_step ev = Some j -> (k <= j)%nat.
Proof.
  induction plan as [|step rest IH]; intros k w ending w' t Hplan ev j Hin Hcall.
  - injection Hplan as <- <- <-. by apply elem_of_nil in Hin.
  - plan_cases Hplan; in_cases Hin; subst; simpl in Hcall;
      try discriminate Hcall; try (injection Hcall as <-; lia).
    + eapply IH in Hin; [|eassumption..]. lia.
    + eapply IH in Hin; [|eassumption..]. lia.
Qed.

(** A FAILED result ends the run, from any position. *)
Lemma failed_run_stops_from plan : forall k w ending w' t i result,
  run_plan_from k plan w = (ending, w', t) ->
  Run i (Return result) ∈ t ->
  result_type result = FAILED ->
  exists step t0,
    (k <= i)%nat
    /\ plan !! (i - k)%nat = Some step
    /\ t = t0 ++ [Run i (Return result); finished_line step result;
                  failed_line step]
    /\ ending = ClickException (message result)
    /\ forall ev j, ev ∈ t0 -> called_step ev = Some j -> (j <= i)%nat.
Proof.
  induction plan as [|step rest IH];
    intros k w ending w' t i result Hplan Hin Hres.
  - injection Hplan as <- <- <-. by apply elem_of_nil in Hin.
  - plan_cases Hplan; in_cases Hin; try discriminate Hin.
    + (* skipped, the failure is later *)
      destruct (IH _ _ _ _ _ _ _ Hrest Hin Hres)
        as (step' & t0 & Hle & Hlook & -> & -> & Hbefore).
      exists step', ([starting_line step; IsSkip k (Return true);
                      skipping_line step; done_line step] ++ t0).
      split; [lia|]. split.
      { replace (i - k)%nat with (S (i - S k)) by lia. exact Hlook. }
      split; [reflexivity|]. split; [reflexivity|].
      intros ev j Hev Hcall. apply elem_of_app in Hev as [Hev | Hev].
      * in_cases Hev; subst; simpl in Hcall; try discriminate Hcall.
        injection Hcall as <-. lia.
      * by eapply Hbefore.
    + (* this step failed *)
      injection Hin as -> ->.
      exists step, [starting_line step; IsSkip k (Return false);
                    running_line step].
      split; [lia|]. split; [by rewrite Nat.sub_diag|].
      split; [reflexivity|]. split; [reflexivity|].
      intros ev j Hev Hcall. in_cases Hev; subst; simpl in Hcall;
        try discriminate Hcall. injection Hcall as <-. lia.
    + (* this step went through: its result is not the failed one *)
      injection Hin as -> ->. contradiction.
    + (* this step went through, the failure is later *)
      destruct (IH _ _ _ _ _ _ _ Hrest Hin Hres)
        as (step' & t0 & Hle & Hlook & -> & -> & Hbefore).
      exists step', ([starting_line step; IsSkip k (Return false);
                      running_line step; Run k (Return r);
                      finished_line step r; done_line step] ++ t0).
      split; [lia|]. split.
      { replace (i - k)%nat with (S (i - S k)) by lia. exact Hlook. }
      split; [reflexivity|]. split; [reflexivity|].
      intros ev j Hev Hcall. apply elem_of_app in Hev as [Hev | Hev].
      * in_cases Hev; subst; simpl in Hcall; try discriminate Hcall;
          injection Hcall as <-; lia.
      * by eapply Hbefore.
Qed.

(** C1.  In every run of the plan loop, when the [run()] of the step
    at position [i] returns a FAILED result, the trace ends right
    there: after that call come only the "Finished running" line and
    the console line of the step's description with "failed"; no
    [is_skip()] and no [run()] of a later position is in the trace;
    and the loop raises [click.ClickException] with the message of
    that result. *)
Theorem failed_step_stops_plan plan w ending w' t i result :
  run_plan plan w = (ending, w', t) ->
  Run i (Return result) ∈ t ->
  result_type result = FAILED ->
  exists step t0,
    plan !! i = Some step
    /\ t = t0 ++ [Run i (Return result); finished_line step result;
                  failed_line step]
    /\ failed_line step
       = ConsolePrint ((description step +:+ " ... ") +:+ "[red]failed[/red]")
    /\ ending = ClickException (message result)
    /\ (forall ev j, ev ∈ t -> called_step ev = Some j -> (j <= i)%nat).
Proof.
  intros Hplan Hin Hres.
  destruct (failed_run_stops_from _ _ _ _ _ _ _ _ Hplan Hin Hres)
    as (step & t0 & _ & Hlook & -> & -> & Hbefore).
  rewrite Nat.sub_0_r in Hlook. exists step, t0.
  repeat split; try done.
  intros ev j Hev Hcall. apply elem_of_app in Hev as [Hev | Hev].
  - by eapply Hbefore.
  - in_cases Hev; subst; simpl in Hcall; try discriminate Hcall.
    injection Hcall as <-. lia.
Qed.

(** [is_skip()] comes before [run()], from any position. *)
Lemma run_after_is_skip_from plan : forall k w ending w' t i o,
  run_plan_from k plan w = (ending, w', t) ->
  Run i o ∈ t ->
  exists t1 t2, t = t1 ++ Run i o :: t2 /\ IsSkip i (Return false) ∈ t1.
Proof.
  induction plan as [|step rest IH]; intros k w ending w' t i o Hplan Hin.
  - injection Hplan as <- <- <-. by apply elem_of_nil in Hin.
  - plan_cases Hplan; in_cases Hin; try discriminate Hin;
      try (injection Hin as -> ->;
           eexists [starting_line step; IsSkip k (Return false);
                    running_line step], _;
           split; [reflexivity|]; right; left).
    + destruct (IH _ _ _ _ _ _ _ Hrest Hin) as (t1 & t2 & -> & Hbefore).
      eexists (_ :: _ :: _ :: _ :: t1), t2. split; [reflexivity|].
      by do 4 right.
    + destruct (IH _ _ _ _ _ _ _ Hrest Hin) as (t1 & t2 & -> & Hbefore).
      eexists (_ :: _ :: _ :: _ :: _ :: _ :: t1), t2. split; [reflexivity|].
      by do 6 right.
Qed.

(** A step whose [is_skip()] returned [True], from any position. *)
Lemma skipped_step_from plan : forall k w ending w' t i,
  run_plan_from k plan w = (ending, w', t) ->
  IsSkip i (Return true) ∈ t ->
  (k <= i)%nat
  /\ (forall o, Run i o ∉ t)
  /\ exists step t1 t2 w0 w1,
      plan !! (i - k)%nat = Some step
      /\ is_skip step w0 = (Return true, w1)
      /\ t = t1 ++ [IsSkip i (Return true); skipping_line step;
                    done_line step] ++ t2
      /\ run_plan_from (S i) (drop (S (i - k)) plan) w1 = (ending, w', t2).
Proof.
  induction plan as [|step rest IH]; intros k w ending w' t i Hplan Hin.
  - injection Hplan as <- <- <-. by apply elem_of_nil in Hin.
  - plan_cases Hplan; in_cases Hin; try discriminate Hin.
    + (* this is the step *)
      injection Hin as ->. split; [lia|]. split.
      * intros o Ho. in_cases Ho; try discriminate Ho.
        eapply called_step_from in Ho; [|eassumption|reflexivity]. lia.
      * exists step, [starting_line step], t', w, w1.
        rewrite Nat.sub_diag. done.
    + (* a later step, this one skipped too *)
      destruct (IH _ _ _ _ _ _ Hrest Hin)
        as (Hle & Hnorun & step' & t1 & t2 & w0 & w1' & Hlook & Hs & -> & Hgo).
      split; [lia|]. split.
      * intros o Ho. in_cases Ho; try discriminate Ho. by eapply Hnorun.
      * exists step', (starting_line step :: IsSkip k (Return true)
                       :: skipping_line step :: done_line step :: t1),
               t2, w0, w1'.
        replace (i - k)%nat with (S (i - S k)) by lia. done.
    + (* a later step, this one ran *)
      destruct (IH _ _ _ _ _ _ Hrest Hin)
        as (Hle & Hnorun & step' & t1 & t2 & w0 & w1' & Hlook & Hs & -> & Hgo).
      split; [lia|]. split.
      * intros o Ho. in_cases Ho; try discriminate Ho.
        -- injection Ho as -> _. lia.
        -- by eapply Hnorun.
      * exists step', (starting_line step :: IsSkip k (Return false)
                       :: running_line step :: Run k (Return r)
                       :: finished_line step r :: done_line step :: t1),
               t2, w0, w1'.
        replace (i - k)%nat with (S (i - S k)) by lia. done.
Qed.

(** A step that ran to a result that is not FAILED gets the "done"
    line, from any position. *)
Lemma done_line_after_run_from plan : forall k w ending w' t i r,
  run_plan_from k plan w = (ending, w', t) ->
  Run i (Return r) ∈ t ->
  result_type r <> FAILED ->
  exists step,
    (k <= i)%nat /\ plan !! (i - k)%nat = Some step /\ done_line step ∈ t.
Proof.
  induction plan as [|step rest IH]; intros k w ending w' t i r Hplan Hin Hr.
  - injection Hplan as <- <- <-. by apply elem_of_nil in Hin.
  - plan_cases Hplan; in_cases Hin; try discriminate Hin.
    + destruct (IH _ _ _ _ _ _ _ Hrest Hin Hr) as (step' & Hle & Hlook & Hdone).
      exists step'. split; [lia|]. split.
      { replace (i - k)%nat with (S (i - S k)) by lia. exact Hlook. }
      by do 4 right.
    + injection Hin as -> ->. contradiction.
    + injection Hin as -> ->. exists step. split; [lia|].
      split; [by rewrite Nat.sub_diag|]. by do 5 right; left.
    + destruct (IH _ _ _ _ _ _ _ Hrest Hin Hr) as (step' & Hle & Hlook & Hdone).
      exists step'. split; [lia|]. split.
      { replace (i - k)%nat with (S (i - S k)) by lia. exact Hlook. }
      by do 6 right.
Qed.

(** C8, as amended.  In every run of the plan loop: a [run()] in the
    trace comes after the [is_skip()] of the same step, which returned
    [False]; when the [is_skip()] of the step at position [i] returns
    [True], no [run()] of that step is in the trace, so no result is
    made for it, the skip is written down as the debug line "Skipping
    step" with the step's name, followed by the console line of the
    step's description with "done", and what follows is the loop over
    the steps after [i], in list order; and that console line is the
    one a step gets that ran to a result that is not FAILED. *)
Theorem skipped_step_is_not_run plan w ending w' t :
  run_plan plan w = (ending, w', t) ->
  (forall i o, Run i o ∈ t ->
     exists t1 t2, t = t1 ++ Run i o :: t2 /\ IsSkip i (Return false) ∈ t1)
  /\ (forall i, IsSkip i (Return true) ∈ t ->
        (forall o, Run i o ∉ t)
        /\ exists step t1 t2 w0 w1,
            plan !! i = Some step
            /\ is_skip step w0 = (Return true, w1)
            /\ t = t1 ++ [IsSkip i (Return true);
                          LogDebug ("Skipping step " +:+ name step);
                          ConsolePrint ((description step +:+ " ... ")
                                        +:+ "[green]done[/green]")] ++ t2
            /\ run_plan_from (S i) (drop (S i) plan) w1 = (ending, w', t2))
  /\ (forall i r, Run i (Return r) ∈ t -> result_type r <> FAILED ->
        exists step,
          plan !! i = Some step
          /\ ConsolePrint ((description step +:+ " ... ")
                           +:+ "[green]done[/green]") ∈ t).
Proof.
  intros Hplan. split; [|split].
  - intros i o Hin. by eapply run_after_is_skip_from.
  - intros i Hin.
    destruct (skipped_step_from _ _ _ _ _ _ _ Hplan Hin)
      as (_ & Hnorun & step & t1 & t2 & w0 & w1 & Hlook & Hs & Ht & Hgo).
    rewrite Nat.sub_0_r in Hlook, Hgo. split; [exact Hnorun|].
    by exists step, t1, t2, w0, w1.
  - intros i r Hin Hr.
    destruct (done_line_after_run_from _ _ _ _ _ _ _ _ Hplan Hin Hr)
      as (step & _ & Hlook & Hdone).
    rewrite Nat.sub_0_r in Hlook. by exists step.
Qed.

End PlanRunner.

Lemma failed_step_stops_plan_witness :
  exists step t0,
    Examples.sample_plan !! 1%nat = Some step
    /\ (Bootstrap.run_plan Examples.sample_plan tt).2
       = t0 ++ [Bootstrap.Run 1 (Return (MkResult FAILED
                   (MStr "Token already generated for the node")));
                Bootstrap.finished_line step
                  (MkResult FAILED (MStr "Token already generated for the node"));
                Bootstrap.failed_line step]
    /\ Bootstrap.failed_line step
       = Bootstrap.ConsolePrint
           ((Bootstrap.description step +:+ " ... ") +:+ "[red]failed[/red]")
    /\ (Bootstrap.run_plan Examples.sample_plan tt).1.1
       = Bootstrap.ClickException (MStr "Token already generated for the node")
    /\ (forall ev j, ev ∈ (Bootstrap.run_plan Examples.sample_plan tt).2 ->
                     Bootstrap.called_step ev = Some j -> (j <= 1)%nat).
Proof.
  apply (failed_step_stops_plan Examples.sample_plan tt
           (Bootstrap.run_plan Examples.sample_plan tt).1.1
           (Bootstrap.run_plan Examples.sample_plan tt).1.2
           (Bootstrap.run_plan Examples.sample_plan tt).2
           1 (MkResult FAILED (MStr "Token already generated for the node"))).
  - by destruct (Bootstrap.run_plan Examples.sample_plan tt) as [[? ?] ?].
  - vm_compute. do 7 apply list_elem_of_further. apply list_elem_of_here.
  - reflexivity.
Defined.

Lemma skipped_step_is_not_run_witness :
  (forall o, Bootstrap.Run 0 o ∉ (Bootstrap.run_plan Examples.sample_plan tt).2)
  /\ (exists t1 t2,
      (Bootstrap.run_plan Examples.sample_plan tt).2
      = t1 ++ [Bootstrap.IsSkip 0 (Return true);
               Bootstrap.LogDebug "Skipping step Bootstrap Cluster";
               Bootstrap.ConsolePrint
                 "Bootstrapping microstack cluster ... [green]done[/green]"]
           ++ t2)
  /\ (exists t1 t2,
      (Bootstrap.run_plan Examples.sample_plan tt).2
      = t1 ++ Bootstrap.Run 1 (Return (MkResult FAILED
                 (MStr "Token already generated for the node"))) :: t2
      /\ Bootstrap.IsSkip 1 (Return false) ∈ t1)
  /\ (exists step : Bootstrap.Step unit,
      MoreExamples.fresh_plan !! 1%nat = Some step
      /\ Bootstrap.ConsolePrint
           ((Bootstrap.description step +:+ " ... ")
            +:+ "[green]done[/green]")
         ∈ (Bootstrap.run_plan MoreExamples.fresh_plan tt).2).
Proof.
  pose proof (skipped_step_is_not_run Examples.sample_plan tt
                (Bootstrap.run_plan Examples.sample_plan tt).1.1
                (Bootstrap.run_plan Examples.sample_plan tt).1.2
                (Bootstrap.run_plan Examples.sample_plan tt).2
                ltac:(by destruct (Bootstrap.run_plan Examples.sample_plan tt)
                        as [[? ?] ?]))
    as (Hbefore & Hskipped & _).
  pose proof (skipped_step_is_not_run MoreExamples.fresh_plan tt
                (Bootstrap.run_plan MoreExamples.fresh_plan tt).1.1
                (Bootstrap.run_plan MoreExamples.fresh_plan tt).1.2
                (Bootstrap.run_plan MoreExamples.fresh_plan tt).2
                ltac:(by destruct (Bootstrap.run_plan MoreExamples.fresh_plan tt)
                        as [[? ?] ?]))
    as (_ & _ & Hdone).
  destruct (Hskipped 0%nat)
    as (Hnorun & step & t1 & t2 & w0 & w1 & Hlook & _ & Ht & _).
  { vm_compute. apply list_elem_of_further, list_elem_of_here. }
  split; [exact Hnorun|]. split; [|split].
  - exists t1, t2. injection Hlook as <-. exact Ht.
  - apply Hbefore. vm_compute.
    do 7 apply list_elem_of_further. apply list_elem_of_here.
  - apply (Hdone 1%nat (MkResult COMPLETED MNone)); [|discriminate].
    vm_compute. do 7 apply list_elem_of_further. apply list_elem_of_here.
Defined.

(** C8, as stated, fails: in the run of the sample plan the first
    step is skipped, and no event of the trace carries the tag
    SKIPPED: the loop makes no result for the step and prints the
    line of a step that is done. *)
Lemma skipped_step_is_not_recorded_as_skipped :
  Bootstrap.IsSkip 0 (Return true)
  ∈ (Bootstrap.run_plan Examples.sample_plan tt).2
  /\ forallb (fun ev => negb (Traces.mentions_skipped ev))
             (Bootstrap.run_plan Examples.sample_plan tt).2 = true
  /\ Traces.console_lines (Bootstrap.run_plan Examples.sample_plan tt).2
     = ["Bootstrapping microstack cluster ... [green]done[/green]";
        "Generate token for new node to add to cluster ... [red]failed[/red]"].
Proof.
  split; [|split].
  - vm_compute. apply list_elem_of_further, list_elem_of_here.
  - vm_compute. reflexivity.
  - vm_compute. reflexivity.
Qed.

(** ** [JujuHelper] ([juju.py]) *)

Lemma isinstance_Exception e : isinstance e Exception = true.
Proof. by destruct e as [[] ?]. Qed.

Section DestroyModel.
Import Juju Observed.
Variable env : Env.
Local Open Scope py_scope.

Lemma later_0 s : later s 0 [] = s.
Proof.
  destruct s as [c n evs]. unfold later; simpl.
  by rewrite Nat.add_0_r, app_nil_r.
Qed.

(** After [ensure_controller] the attribute is set, whatever
    [connect()] did. *)
Lemma ensure_controller_sets o s s1 :
  ensure_controller env s = (o, s1) -> is_Some (controller s1).
Proof.
  unfold ensure_controller. destruct (controller s) as [c|] eqn:Hc.
  - intros [= <- <-]. by rewrite Hc.
  - unfold await. intros [= <- <-]. by eexists.
Qed.

(** [get_models()] with the controller set. *)
Lemma get_models_connected s :
  is_Some (controller s) ->
  get_models env s
  = (Return (models_seen env (list_calls s)), later s 1 [ListModels]).
Proof.
  intros [c Hc]. unfold get_models, try_except, bind, ensure_controller.
  rewrite Hc. unfold controller_list_models, await, models_seen, later, ret.
  simpl. destruct (list_models env (list_calls s)) as [models|e].
  - by rewrite Nat.add_1_r.
  - by rewrite isinstance_Exception, Nat.add_1_r.
Qed.

Lemma later_later s j1 evs1 j2 evs2 :
  later (later s j1 evs1) j2 evs2 = later s (j1 + j2) (evs1 ++ evs2).
Proof.
  unfold later; simpl. f_equal; [lia | by rewrite app_assoc].
Qed.

Lemma rounds_S j : rounds (S j) = [ListModels; Sleep 10] ++ rounds j.
Proof. reflexivity. Qed.

(** One round: the model is still listed. *)
Lemma wait_removed_round n model_name s :
  is_Some (controller s) ->
  model_name ∈ models_seen env (list_calls s) ->
  wait_removed env (S n) model_name s
  = wait_removed env n model_name (later s 1 [ListModels; Sleep 10]).
Proof.
  intros Hc Hin. simpl. unfold bind at 1. rewrite get_models_connected by done.
  rewrite bool_decide_false by (intros Hnot; by apply Hnot).
  unfold bind, await. simpl. do 2 f_equal.
  unfold later; simpl. by rewrite <- app_assoc.
Qed.

(** The wait ends with [True] at the first look that does not list
    the model. *)
Lemma wait_removed_gone model_name : forall n j s,
  is_Some (controller s) ->
  (j < n)%nat ->
  model_name ∉ models_seen env (list_calls s + j) ->
  (forall i, (i < j)%nat -> model_name ∈ models_seen env (list_calls s + i)) ->
  wait_removed env n model_name s
  = (Return true, later s (S j) (rounds j ++ [ListModels])).
Proof.
  induction n as [|n IH]; intros j s Hc Hj Hgone Hstill; [lia|].
  destruct j as [|j].
  - rewrite Nat.add_0_r in Hgone. simpl. unfold bind.
    rewrite get_models_connected by done.
    by rewrite bool_decide_true.
  - rewrite wait_removed_round; [|done|].
    2:{ specialize (Hstill 0%nat). rewrite Nat.add_0_r in Hstill.
        apply Hstill. lia. }
    rewrite (IH j).
    + rewrite later_later, rounds_S. do 2 f_equal.
    + done.
    + lia.
    + simpl. by replace (list_calls s + 1 + j)%nat
               with (list_calls s + S j)%nat by lia.
    + intros i Hi. simpl.
      replace (list_calls s + 1 + i)%nat with (list_calls s + S i)%nat by lia.
      apply Hstill. lia.
Qed.

(** The wait ends with [False] after [n] looks that all list the
    model. *)
Lemma wait_removed_still model_name : forall n s,
  is_Some (controller s) ->
  (forall i, (i < n)%nat -> model_name ∈ models_seen env (list_calls s + i)) ->
  wait_removed env n model_name s = (Return false, later s n (rounds n)).
Proof.
  induction n as [|n IH]; intros s Hc Hstill.
  - simpl. unfold ret. by rewrite later_0.
  - rewrite wait_removed_round; [|done|].
    2:{ specialize (Hstill 0%nat). rewrite Nat.add_0_r in Hstill.
        apply Hstill. lia. }
    rewrite IH.
    + rewrite later_later, rounds_S. do 2 f_equal.
    + done.
    + intros i Hi. simpl.
      replace (list_calls s + 1 + i)%nat with (list_calls s + S i)%nat by lia.
      apply Hstill. lia.
Qed.

(** The wait returns, after at most [n] looks. *)
Lemma wait_removed_returns model_name : forall n s,
  is_Some (controller s) ->
  exists (b : bool) j evs,
    wait_removed env n model_name s = (Return b, later s j evs)
    /\ (j <= n)%nat.
Proof.
  induction n as [|n IH]; intros s Hc.
  - exists false, 0%nat, []. simpl. unfold ret. by rewrite later_0.
  - destruct (decide (model_name ∈ models_seen env (list_calls s))) as [Hin|Hout].
    + rewrite wait_removed_round by done.
      destruct (IH (later s 1 [ListModels; Sleep 10]) Hc) as (b & j & evs & -> & Hj).
      exists b, (1 + j)%nat, ([ListModels; Sleep 10] ++ evs).
      rewrite later_later. split; [done | lia].
    + exists true, 1%nat, [ListModels]. split; [|lia].
      simpl. unfold bind. rewrite get_models_connected by done.
      by rewrite bool_decide_true.
Qed.

Lemma ensure_controller_list_calls o s s1 :
  ensure_controller env s = (o, s1) -> list_calls s1 = list_calls s.
Proof.
  unfold ensure_controller. destruct (controller s); unfold await;
    by intros [= <- <-].
Qed.

Lemma request_destroy_sets model_name o s s1 :
  request_destroy env model_name s = (o, s1) ->
  is_Some (controller s1) /\ list_calls s1 = list_calls s.
Proof.
  unfold request_destroy, bind.
  destruct (ensure_controller env s) as [[[]|e] s0] eqn:Hensure.
  - unfold await. intros [= <- <-]. simpl. split.
    + by eapply ensure_controller_sets.
    + by eapply ensure_controller_list_calls.
  - intros [= <- <-]. split.
    + by eapply ensure_controller_sets.
    + by eapply ensure_controller_list_calls.
Qed.

(** [destroy_model] with [wait=True] is the request, then the wait
    of 30 rounds; a request that raises gives [False]. *)
Lemma destroy_model_unfold model_name s :
  destroy_model env model_name true s
  = match request_destroy env model_name s with
    | (Return _, s1) => wait_removed env 30 model_name s1
    | (Raise _, s1) => (Return false, s1)
    end.
Proof.
  unfold destroy_model, try_except, request_destroy, bind, ret.
  destruct (ensure_controller env s) as [[[]|e] s0] eqn:Hensure.
  - unfold await.
    destruct (destroy_models env model_name) as [[]|e].
    + destruct (ensure_controller_sets _ _ _ Hensure) as [c Hc].
      set (s1 := {| controller := controller s0; list_calls := list_calls s0;
                    events := events s0 ++ [DestroyModels model_name] |}).
      destruct (wait_removed_returns model_name 30 s1) as (b & j & evs & Hw & _).
      { by exists c. }
      by rewrite Hw.
    + by rewrite isinstance_Exception.
  - by rewrite isinstance_Exception.
Qed.

(** C7.  [destroy_model(model_name, wait=True)] returns, and returns
    a [bool], after at most 30 looks at the list of models.  Once
    the request itself has gone through: it returns [True] at the
    first look, among the 30, that does not list the model, each
    look before it being followed by a sleep of 10; and it returns
    [False] after 30 looks that all list the model. *)
Theorem destroy_model_wait_terminates model_name s :
  (exists (b : bool) s',
      destroy_model env model_name true s = (Return b, s')
      /\ (list_calls s' <= list_calls s + 30)%nat)
  /\ forall s1,
      request_destroy env model_name s = (Return tt, s1) ->
      (forall j, (j < 30)%nat ->
         model_name ∉ models_seen env (list_calls s1 + j) ->
         (forall i, (i < j)%nat ->
                    model_name ∈ models_seen env (list_calls s1 + i)) ->
         destroy_model env model_name true s
         = (Return true, later s1 (S j) (rounds j ++ [ListModels])))
      /\ ((forall i, (i < 30)%nat ->
                     model_name ∈ models_seen env (list_calls s1 + i)) ->
          destroy_model env model_name true s
          = (Return false, later s1 30 (rounds 30))).
Proof.
  rewrite destroy_model_unfold. split.
  - destruct (request_destroy env model_name s) as [[[]|e] s1] eqn:Hreq.
    + destruct (request_destroy_sets _ _ _ _ Hreq) as [Hc Hcalls].
      destruct (wait_removed_returns model_name 30 s1 Hc)
        as (b & j & evs & -> & Hj).
      exists b, (later s1 j evs). split; [done|]. simpl. lia.
    + exists false, s1. split; [done|].
      destruct (request_destroy_sets _ _ _ _ Hreq) as [_ ->]. lia.
  - intros s1 Hreq. rewrite Hreq.
    destruct (request_destroy_sets _ _ _ _ Hreq) as [Hc _]. split.
    + intros j Hj Hgone Hstill. by apply wait_removed_gone.
    + intros Hstill. by apply wait_removed_still.
Qed.

End DestroyModel.

Lemma destroy_model_wait_terminates_witness :
  Juju.destroy_model Examples.removing_env "openstack" true Juju.JujuHelper
  = (Return true,
     {| Juju.controller := Some Juju.ControllerObject;
        Juju.list_calls := 3;
        Juju.events := [Juju.Connect; Juju.DestroyModels "openstack";
                        Juju.ListModels; Juju.Sleep 10;
                        Juju.ListModels; Juju.Sleep 10;
                        Juju.ListModels] |})
  /\ Juju.destroy_model Examples.stuck_env "openstack" true Juju.JujuHelper
     = (Return false,
        Observed.later
          {| Juju.controller := Some Juju.ControllerObject;
             Juju.list_calls := 0;
             Juju.events := [Juju.Connect; Juju.DestroyModels "openstack"] |}
          30 (Observed.rounds 30)).
Proof.
  split.
  - apply (proj1 (proj2 (destroy_model_wait_terminates Examples.removing_env
                           "openstack" Juju.JujuHelper) _ eq_refl) 2%nat).
    + lia.
    + apply (bool_decide_unpack _). vm_compute. exact I.
    + intros i Hi. destruct i as [|[|i]]; [| |lia];
        apply (bool_decide_unpack _); vm_compute; exact I.
  - apply (proj2 (proj2 (destroy_model_wait_terminates Examples.stuck_env
                           "openstack" Juju.JujuHelper) _ eq_refl)).
    intros i _. apply list_elem_of_further, list_elem_of_here.
Defined.

(** ** The end of [bootstrap] ([bootstrap.py], [juju.py]) *)

Section Disconnect.
Import Juju Bootstrap.

Lemma disconnect_controller_None env s :
  controller s = None ->
  disconnect_controller env s
  = (Raise (MkExc AttributeError
              "'NoneType' object has no attribute 'disconnect'"), s).
Proof. intros Hc. unfold disconnect_controller. by rewrite Hc. Qed.

(** A run the plan loop does not complete ends as the loop ends:
    [disconnect_controller()] is not reached. *)
Lemma bootstrap_aborted env role plan s ending s1 t :
  run_plan plan s = (ending, s1, t) ->
  ending <> Returned ->
  bootstrap env role plan s = (ending, s1, t).
Proof.
  intros Hplan Hending. unfold bootstrap. rewrite Hplan.
  by destruct ending.
Qed.

(** C10, as amended.  [disconnect_controller()] on a helper whose
    [self.controller] is still [None] raises [AttributeError]; and
    in every run of [bootstrap] in which the plan loop completes,
    the command ends with [disconnect_controller()], called with no
    check of the handle, so that such a run ends with that
    [AttributeError] when no step has set the controller. *)
Theorem bootstrap_disconnects_after_completed_plan env role plan s s1 t :
  run_plan plan s = (Returned, s1, t) ->
  (forall s0, controller s0 = None ->
     disconnect_controller env s0
     = (Raise (MkExc AttributeError
                 "'NoneType' object has no attribute 'disconnect'"), s0))
  /\ ends_with_disconnect env role plan s
  /\ (controller s1 = None ->
      bootstrap env role plan s
      = (Uncaught (MkExc AttributeError
                     "'NoneType' object has no attribute 'disconnect'"),
         s1,
         t ++ [ClickEcho ("Node has been bootstrapped as a " +:+ role
                          +:+ " node")])).
Proof.
  intros Hplan. split; [intros s0; by apply disconnect_controller_None|].
  split.
  - destruct (disconnect_controller env s1) as [o s2] eqn:Hdis.
    exists Returned, s1, t, o, s2. split; [done|]. split; [done|].
    unfold bootstrap. rewrite Hplan, Hdis. by destruct o.
  - intros Hc. unfold bootstrap.
    by rewrite Hplan, disconnect_controller_None.
Qed.

Lemma bootstrap_disconnects_after_completed_plan_witness :
  bootstrap Examples.refusing_env "control" Examples.member_plan JujuHelper
  = (Uncaught (MkExc AttributeError
                 "'NoneType' object has no attribute 'disconnect'"),
     JujuHelper,
     [LogDebug "Starting step Bootstrap Cluster";
      IsSkip 0 (Return true);
      LogDebug "Skipping step Bootstrap Cluster";
      ConsolePrint "Bootstrapping microstack cluster ... [green]done[/green]";
      ClickEcho "Node has been bootstrapped as a control node"]).
Proof.
  apply (proj2 (proj2 (bootstrap_disconnects_after_completed_plan
                         Examples.refusing_env "control"
                         Examples.member_plan JujuHelper JujuHelper
                         _ ltac:(vm_compute; reflexivity)))).
  reflexivity.
Defined.

(** C10, as stated, fails on a run that a FAILED step ends: the
    command raises [click.ClickException] and the connection the
    step opened is not closed. *)
Lemma bootstrap_failed_plan_does_not_disconnect :
  ~ ends_with_disconnect Examples.refusing_env "control"
      Examples.refused_plan JujuHelper
  /\ exists s t,
      bootstrap Examples.refusing_env "control" Examples.refused_plan
                JujuHelper
      = (ClickException (MStr "Error in creation of model openstack"), s, t)
      /\ controller s = Some ControllerObject
      /\ Disconnect ∉ events s.
Proof.
  split.
  - intros (ending & s1 & t & o & s2 & _ & _ & Hboot).
    vm_compute in Hboot. destruct o; discriminate Hboot.
  - eexists _, _. split; [vm_compute; reflexivity|]. split; [reflexivity|].
    simpl. intros Hin.
    repeat (apply elem_of_cons in Hin as [Hin | Hin]; [discriminate Hin|]).
    by apply elem_of_nil in Hin.
Qed.

End Disconnect.

(** ** Faults that leave [run()] ([clusterd.py], [bootstrap.py]) *)

Section EscapingFaults.
Import Clusterd Bootstrap.

(** The plan loop has no handler: what [run()] raises leaves the
    loop as it is. *)
Lemma run_exception_leaves_plan {W} (step : Step W) rest w w1 w2 e :
  is_skip step w = (Return false, w1) ->
  run step w1 = (Raise e, w2) ->
  run_plan (step :: rest) w
  = (Uncaught e, w2,
     [starting_line step; IsSkip 0 (Return false); running_line step;
      Run 0 (Raise e)]).
Proof.
  intros Hskip Hrun. unfold run_plan. simpl. by rewrite Hskip, Hrun.
Qed.

(** C3 fails on the code.  After a join that went through,
    [ClusterJoinNodeStep.run] raises [NameError] instead of
    returning a result, and [ClusterAddNodeStep.run] raises again
    the [HTTPError] that no rule of the table classifies; the plan
    loop converts neither: the exception leaves the command, no
    FAILED result is made and no [click.ClickException] is
    raised. *)
Theorem unexpected_fault_leaves_run :
  ClusterJoinNodeStep_run Examples.join_willing
  = Raise (MkExc NameError "name 'token' is not defined")
  /\ (run_plan [Steps.of_ClusterJoinNodeStep Examples.join_willing] tt).1.1
     = Uncaught (MkExc NameError "name 'token' is not defined")
  /\ ClusterAddNodeStep_run Examples.add_unknown = Raise Examples.http_500
  /\ (run_plan [Steps.of_ClusterAddNodeStep Examples.add_unknown] tt).1.1
     = Uncaught Examples.http_500.
Proof. repeat split; vm_compute; reflexivity. Qed.

End EscapingFaults.

(** ** The message of a FAILED result (all the steps) *)

Create HintDb failed.

Section FailedMessage.
Import Juju.

Lemma failed_of_described e :
  exc_str e <> EmptyString ->
  failed_with_message (Return (MkResult FAILED (MStr (exc_str e)))).
Proof. intros He r [= <-] _. by eexists. Qed.

Lemma failed_of_literal text :
  text <> EmptyString ->
  failed_with_message (Return (MkResult FAILED (MStr text))).
Proof. intros He r [= <-] _. by eexists. Qed.

Lemma not_failed_completed m :
  failed_with_message (Return (MkResult COMPLETED m)).
Proof. intros r [= <-] Hf. discriminate Hf. Qed.

Lemma not_failed_raise e : failed_with_message (Raise e).
Proof. intros r Hr. discriminate Hr. Qed.

Hint Resolve failed_of_described not_failed_completed not_failed_raise
  : failed.

Lemma bind_described {A B} (m : M A) (k : A -> M B) :
  raises_described m -> (forall a, raises_described (k a)) ->
  raises_described (bind m k).
Proof.
  intros Hm Hk s e s1. unfold bind.
  destruct (m s) as [[a|e0] s0] eqn:Hms.
  - apply Hk.
  - intros [= <- <-]. by eapply Hm.
Qed.

Lemma await_described {A} ev (o : outcome A) :
  described o -> raises_described (await ev o).
Proof. intros Ho s e s1. unfold await. intros [= -> _]. by apply Ho. Qed.

Lemma call_described {A} (o : outcome A) :
  described o -> raises_described (fun s => (o, s)).
Proof. intros Ho s e s1 [= -> _]. by apply Ho. Qed.

Lemma ret_described {A} (a : A) : raises_described (ret a).
Proof. intros s e s1. unfold ret. intros [= ]. Qed.

Lemma ensure_controller_described env :
  env_described env -> raises_described (ensure_controller env).
Proof.
  intros (Hconnect & _) s e s1. unfold ensure_controller.
  destruct (controller s); [intros [= ]|].
  by apply await_described.
Qed.

Lemma wait_until_active_described env model :
  env_described env -> raises_described (wait_until_active env model).
Proof.
  intros Henv. pose proof Henv as (_ & Hget & _ & Hblock).
  unfold wait_until_active.
  apply bind_described; [by apply ensure_controller_described|intros _].
  apply bind_described; [by apply await_described|intros _].
  by apply call_described.
Qed.

Lemma get_model_status_full_described env model timeout :
  env_described env ->
  raises_described (get_model_status_full env model timeout).
Proof.
  intros Henv. pose proof Henv as (_ & Hget & Hstatus & _).
  unfold get_model_status_full.
  apply bind_described; [by apply ensure_controller_described|intros _].
  apply bind_described; [by apply await_described|intros _].
  apply bind_described; [by apply call_described|intros status].
  apply ret_described.
Qed.

(** [get_model_status] does not raise: its handler takes every
    exception. *)
Lemma get_model_status_returns env fuel model timeout s o s1 :
  get_model_status env fuel model timeout s = Some (o, s1) ->
  exists apps_status, o = Return apps_status.
Proof.
  unfold get_model_status.
  destruct (bind _ _ s) as [[[]|e] s0].
  - destruct (poll_loop _ _ _ _ _ _ _) as [[apps_status sleeps]|];
      [|discriminate]. intros [= <- _]. by eexists.
  - rewrite isinstance_Exception. intros [= <- _]. by eexists.
Qed.

Lemma ClusterInitStep_run_message self :
  client_described (Clusterd.init_client self) ->
  failed_with_message (Clusterd.ClusterInitStep_run self).
Proof.
  intros (_ & Hboot & _). unfold Clusterd.ClusterInitStep_run.
  destruct (Clusterd.bootstrap _ _ _) as [[]|e] eqn:Hcall; auto with failed.
  destruct (isinstance e Exception); auto with failed.
  apply failed_of_described. by eapply Hboot.
Qed.

Lemma ClusterAddNodeStep_run_message self :
  client_described (Clusterd.add_client self) ->
  failed_with_message (Clusterd.ClusterAddNodeStep_run self).
Proof.
  intros (_ & _ & Hadd & _). unfold Clusterd.ClusterAddNodeStep_run.
  destruct (Clusterd.add_node _ _ _) as [token|e] eqn:Hcall; auto with failed.
  destruct (isinstance e _); auto with failed.
  apply failed_of_described. by eapply Hadd.
Qed.

Lemma ClusterJoinNodeStep_run_message self :
  client_described (Clusterd.join_client self) ->
  failed_with_message (Clusterd.ClusterJoinNodeStep_run self).
Proof.
  intros (_ & _ & _ & Hjoin). unfold Clusterd.ClusterJoinNodeStep_run.
  destruct (Clusterd.join_node _ _ _ _) as [[]|e] eqn:Hcall.
  - simpl. auto with failed.
  - destruct (_ || _); auto with failed.
    apply failed_of_described. by eapply Hjoin.
Qed.

Lemma DeployControlPlaneStep_run_message env tfhelper model cloud s :
  env_described env -> terraform_described tfhelper ->
  failed_with_message
    (Bootstrap.DeployControlPlaneStep_run env tfhelper model cloud s).1.
Proof.
  intros Henv (_ & Happly). unfold Bootstrap.DeployControlPlaneStep_run.
  destruct (Bootstrap.write_tfvars _ _ _) as [[]|e]; [|simpl; auto with failed].
  unfold try_except, bind, ret.
  destruct (Bootstrap.apply tfhelper) as [[]|e] eqn:Hcall.
  - destruct (wait_until_active env model s) as [[[]|e] s1] eqn:Hwait; simpl;
      [auto with failed|].
    destruct (isinstance e _); simpl; [|auto with failed].
    apply failed_of_described. by eapply wait_until_active_described.
  - destruct (isinstance e _); simpl; [|auto with failed].
    apply failed_of_described. by apply Happly.
Qed.

Lemma k8s_clouds_of_raises clouds e :
  JujuSteps.k8s_clouds_of clouds = Raise e -> e = MkExc KeyError "'type'".
Proof.
  induction clouds as [|[name details] rest IH]; simpl; [discriminate|].
  destruct (details !! "type") as [ty|]; [|by intros [= <-]].
  destruct (JujuSteps.k8s_clouds_of rest) as [names|e0]; [discriminate|].
  intros [= <-]. by apply IH.
Qed.

Lemma BootstrapJujuStep_run_message host cloud :
  host_described host ->
  failed_with_message (JujuSteps.BootstrapJujuStep_run host cloud).
Proof.
  intros (Hclouds & Hrun & _). unfold JujuSteps.BootstrapJujuStep_run.
  destruct (JujuSteps.juju_clouds host) as [clouds|e] eqn:Hcall.
  - destruct (JujuSteps.k8s_clouds_of clouds) as [k8s_clouds|e] eqn:Hk8s.
    + case_bool_decide; [by apply failed_of_literal|].
      case_bool_decide; [by apply failed_of_literal|].
      destruct (JujuSteps.subprocess_run host _) as [[]|e] eqn:Hsub;
        [auto with failed|].
      destruct (isinstance e _); [|auto with failed].
      apply failed_of_described. by eapply Hrun.
    + apply k8s_clouds_of_raises in Hk8s as ->. simpl. auto with failed.
  - destruct (isinstance e _); [|auto with failed].
    apply failed_of_described. by apply Hclouds.
Qed.

Lemma CreateModelStep_run_message env model s :
  failed_with_message (JujuSteps.CreateModelStep_run env model s).1.
Proof.
  unfold JujuSteps.CreateModelStep_run, bind, ret.
  destruct (add_model env model s) as [[[|]|e] s1]; simpl; auto with failed.
  by apply failed_of_literal.
Qed.

Lemma DeployBundleStep_run_message env model bundle name s :
  failed_with_message (JujuSteps.DeployBundleStep_run env model bundle name s).1.
Proof.
  unfold JujuSteps.DeployBundleStep_run, bind, ret.
  destruct (deploy_bundle env model bundle s) as [[[|]|e] s1]; simpl;
    auto with failed.
  by apply failed_of_literal.
Qed.

Lemma DestroyModelStep_run_message env model s :
  failed_with_message (JujuSteps.DestroyModelStep_run env model s).1.
Proof.
  unfold JujuSteps.DestroyModelStep_run, bind, ret.
  destruct (destroy_model env model true s) as [[[|]|e] s1]; simpl;
    auto with failed.
  by apply failed_of_literal.
Qed.

Lemma ModelStatusStep_run_message env order fuel model timeout s o s1 :
  JujuSteps.ModelStatusStep_run env order fuel model timeout s = Some (o, s1) ->
  failed_with_message o.
Proof.
  unfold JujuSteps.ModelStatusStep_run.
  destruct (get_model_status env fuel model timeout s) as [[o0 s0]|] eqn:Hget;
    [|discriminate].
  apply get_model_status_returns in Hget as [apps_status ->].
  intros [= <- _]. auto with failed.
Qed.

Lemma WriteModelStatusStep_run_message env host model file_path timeout s :
  env_described env -> host_described host ->
  failed_with_message
    (JujuSteps.WriteModelStatusStep_run env host model file_path timeout s).1.
Proof.
  intros Henv (_ & _ & Hdump & _).
  unfold JujuSteps.WriteModelStatusStep_run, try_except.
  match goal with |- context [bind ?m ?k s] =>
    assert (raises_described (bind m k)) as Hbody;
    [|destruct (bind m k s) as [[r|e] s1] eqn:Hrun] end.
  - apply bind_described; [by apply get_model_status_full_described|].
    intros status. apply bind_described; [by apply call_described|].
    intros _. apply ret_described.
  - simpl. revert Hrun. unfold bind, ret.
    destruct (get_model_status_full _ _ _ s) as [[status|e] s0];
      [|discriminate].
    destruct (JujuSteps.dump_status _ _ _) as [[]|e]; [|discriminate].
    intros [= <- _]. auto with failed.
  - rewrite isinstance_Exception. simpl.
    apply failed_of_described. by eapply Hbody.
Qed.

Lemma WriteCharmLog_run_message host model file_path :
  host_described host ->
  failed_with_message (JujuSteps.WriteCharmLog_run host model file_path).
Proof.
  intros (_ & _ & _ & Hcall). unfold JujuSteps.WriteCharmLog_run.
  destruct (JujuSteps.check_call_to_file _ _ _) as [[]|e] eqn:Hrun;
    [auto with failed|].
  destruct (isinstance e _); [|auto with failed].
  apply failed_of_described. by eapply Hcall.
Qed.

(** C9, as amended.  The message of a FAILED result is either a
    fixed text, which is not empty, or [str(e)] of the exception the
    step caught; so every FAILED result that a [run()] of the system
    returns carries a non-empty string as its message, provided that
    what the calls of the step raise has a non-empty description. *)
Theorem failed_result_has_message
        (client : Clusterd.Client) (env : Env) (host : JujuSteps.Host)
        (tfhelper : Bootstrap.TerraformHelper) :
  client_described client ->
  env_described env ->
  host_described host ->
  terraform_described tfhelper ->
  (forall fqdn ip,
      failed_with_message
        (Clusterd.ClusterInitStep_run
           {| Clusterd.init_client := client; Clusterd.init_fqdn := fqdn;
              Clusterd.init_ip := ip |}))
  /\ (forall name role,
      failed_with_message
        (Clusterd.ClusterAddNodeStep_run
           {| Clusterd.add_client := client; Clusterd.node_name := name;
              Clusterd.role := role |}))
  /\ (forall token fqdn ip,
      failed_with_message
        (Clusterd.ClusterJoinNodeStep_run
           {| Clusterd.join_client := client; Clusterd.join_token := token;
              Clusterd.join_fqdn := fqdn; Clusterd.join_ip := ip |}))
  /\ (forall model cloud s,
      failed_with_message
        (Bootstrap.DeployControlPlaneStep_run env tfhelper model cloud s).1)
  /\ (forall cloud,
      failed_with_message (JujuSteps.BootstrapJujuStep_run host cloud))
  /\ (forall model s,
      failed_with_message (JujuSteps.CreateModelStep_run env model s).1)
  /\ (forall model bundle name s,
      failed_with_message
        (JujuSteps.DeployBundleStep_run env model bundle name s).1)
  /\ (forall model s,
      failed_with_message (JujuSteps.DestroyModelStep_run env model s).1)
  /\ (forall order fuel model timeout s o s1,
      JujuSteps.ModelStatusStep_run env order fuel model timeout s
      = Some (o, s1) ->
      failed_with_message o)
  /\ (forall model file_path timeout s,
      failed_with_message
        (JujuSteps.WriteModelStatusStep_run env host model file_path
                                            timeout s).1)
  /\ (forall model file_path,
      failed_with_message (JujuSteps.WriteCharmLog_run host model file_path))
  /\ (forall model bundle_dir,
      failed_with_message
        (Openstack.DeployControlPlaneStep_run model bundle_dir)).
Proof.
  intros Hclient Henv Hhost Htf. repeat split.
  - intros. by apply ClusterInitStep_run_message.
  - intros. by apply ClusterAddNodeStep_run_message.
  - intros. by apply ClusterJoinNodeStep_run_message.
  - intros. by apply DeployControlPlaneStep_run_message.
  - intros. by apply BootstrapJujuStep_run_message.
  - intros. apply CreateModelStep_run_message.
  - intros. apply DeployBundleStep_run_message.
  - intros. apply DestroyModelStep_run_message.
  - intros. by eapply ModelStatusStep_run_message.
  - intros. by apply WriteModelStatusStep_run_message.
  - intros. by apply WriteCharmLog_run_message.
  - intros. apply not_failed_raise.
Qed.

Lemma failed_result_has_message_witness :
  failed_with_message (Clusterd.ClusterAddNodeStep_run Examples.add_again)
  /\ failed_with_message
       (Bootstrap.DeployControlPlaneStep_run
          Examples.refusing_env Examples.sample_tfhelper
          "openstack" "microk8s" JujuHelper).1.
Proof.
  assert (client_described Examples.minted_client) as Hclient.
  { repeat split; intros; intros e He; vm_compute in He;
      try discriminate He; injection He as <-; discriminate. }
  assert (env_described Examples.refusing_env) as Henv.
  { repeat split; intros; intros e He; discriminate He. }
  assert (host_described Examples.sample_host) as Hhost.
  { repeat split; intros; intros e He; discriminate He. }
  assert (terraform_described Examples.sample_tfhelper) as Htf.
  { repeat split; intros; intros e He; try discriminate He.
    injection He as <-. discriminate. }
  pose proof (failed_result_has_message Examples.minted_client
                Examples.refusing_env Examples.sample_host
                Examples.sample_tfhelper Hclient Henv Hhost Htf)
    as (_ & Hadd & _ & Hdeploy & _).
  split; [apply (Hadd "node-b" "compute") | apply Hdeploy].
Defined.

(** C9, as stated, fails: [ClusterInitStep.run] turns an exception
    raised without arguments into a FAILED result whose message is
    the empty string, and so does [WriteModelStatusStep.run] when the
    connection times out. *)
Lemma failed_result_with_empty_message :
  Clusterd.ClusterInitStep_run Examples.init_silent
  = Return (MkResult FAILED (MStr EmptyString))
  /\ ~ failed_with_message (Clusterd.ClusterInitStep_run Examples.init_silent)
  /\ (JujuSteps.WriteModelStatusStep_run
        Examples.timing_out_env Examples.sample_host
        "openstack" "status.json" 0 JujuHelper).1
     = Return (MkResult FAILED (MStr EmptyString)).
Proof.
  split; [reflexivity|]. split; [|reflexivity].
  intros Hmsg. destruct (Hmsg _ eq_refl eq_refl) as (text & [= <-] & Hne).
  by apply Hne.
Qed.

End FailedMessage.

(** ** [get_model_status] ([juju.py]) *)

Section GetModelStatus.
Import Juju Observed.
Variable env : Env.
Variable model : string.
Variable timeout : Z.

Let apps : gset string := dom (applications env model 0).

(** One pass over the applications, at the look [n]. *)
Lemma foldl_look n (l : list string) : forall st act,
  let acc := foldl (look env model n) (st, act) l in
  (forall a, a ∈ l ->
     acc.1 !! a = match applications env model n !! a with
                  | Some status => Some status
                  | None => st !! a
                  end)
  /\ (forall a, a ∉ l -> acc.1 !! a = st !! a)
  /\ (forall a, a ∈ acc.2 <->
                a ∈ act \/ (a ∈ l /\ applications env model n !! a = Some "active")).
Proof.
  induction l as [|x l IH]; intros st act; simpl.
  - split; [intros a Ha; by apply elem_of_nil in Ha|].
    split; [done|]. intros a. split; [by left|].
    intros [Ha | [Ha _]]; [done | by apply elem_of_nil in Ha].
  - destruct (IH (look env model n (st, act) x).1
                 (look env model n (st, act) x).2) as (Hin & Hout & Hact).
    rewrite <- surjective_pairing in Hin, Hout, Hact.
    unfold look in *. simpl in *. split; [|split].
    + intros a Ha. destruct (decide (a ∈ l)) as [Hl | Hl].
      * rewrite (Hin a Hl).
        destruct (applications env model n !! a) as [sa|] eqn:Hsa; [done|].
        destruct (applications env model n !! x) as [sx|] eqn:Hsx; [|done].
        simpl. rewrite lookup_insert_ne; [done|]. intros ->. congruence.
      * rewrite (Hout a Hl). apply elem_of_cons in Ha as [-> | Ha]; [|done].
        destruct (applications env model n !! x) as [sx|] eqn:Hsx; [|done].
        simpl. by rewrite lookup_insert_eq.
    + intros a Ha. apply not_elem_of_cons in Ha as [Hne Hl].
      rewrite (Hout a Hl).
      destruct (applications env model n !! x) as [sx|]; [|done].
      simpl. by rewrite lookup_insert_ne.
    + intros a. rewrite Hact, elem_of_cons.
      destruct (applications env model n !! x) as [sx|] eqn:Hsx; simpl.
      * case_bool_decide as Hsx'; [subst sx|].
        -- rewrite elem_of_union, elem_of_singleton. split.
           ++ intros [[-> | Ha] | [Ha Hs]]; eauto.
           ++ intros [Ha | [[-> | Ha] Hs]]; eauto.
        -- split.
           ++ intros [Ha | [Ha Hs]]; eauto.
           ++ intros [Ha | [[-> | Ha] Hs]]; eauto. congruence.
      * split.
        -- intros [Ha | [Ha Hs]]; eauto.
        -- intros [Ha | [[-> | Ha] Hs]]; eauto. congruence.
Qed.

Lemma looked_0 : looked env model 0 ∅ ∅.
Proof.
  split.
  - intros a. rewrite lookup_empty. by case_decide.
  - intros a. split; [intros Ha; by apply not_elem_of_empty in Ha|].
    intros (_ & j & Hj & _). lia.
Qed.

Lemma looked_S n st act :
  looked env model n st act ->
  let acc := foldl (look env model (S n)) (st, act) (elements apps) in
  looked env model (S n) acc.1 acc.2.
Proof.
  intros [Hst Hact] acc.
  destruct (foldl_look (S n) (elements apps) st act) as (Hin & Hout & Hacc).
  fold acc in Hin, Hout, Hacc. split.
  - intros a. fold apps. case_decide as Ha.
    + rewrite Hin by (by apply elem_of_elements). simpl.
      destruct (applications env model (S n) !! a); [done|].
      rewrite (Hst a). fold apps. by rewrite decide_True.
    + rewrite Hout by (by rewrite elem_of_elements).
      rewrite (Hst a). fold apps. by rewrite decide_False.
  - intros a. rewrite Hacc, Hact, elem_of_elements. split.
    + intros [(Ha & j & Hj & Hs) | [Ha Hs]].
      * split; [done|]. exists j. split; [lia | done].
      * split; [done|]. exists (S n). split; [lia | done].
    + intros (Ha & j & Hj & Hs). destruct (decide (j = S n)) as [-> | Hne].
      * right. done.
      * left. split; [done|]. exists j. split; [lia | done].
Qed.

(** The test [apps_count == len(apps_active)] after [n] looks. *)
Lemma looked_all_active n st act :
  looked env model n st act ->
  size apps = size act <-> all_seen_active env model n.
Proof.
  intros [_ Hact]. assert (act ⊆ apps) as Hsub.
  { intros a Ha. by apply Hact in Ha as [? _]. }
  split.
  - intros Hsize a Ha.
    assert (act = apps) as Heq.
    { apply set_subseteq_size_eq; [done | lia]. }
    fold apps in Ha. rewrite <- Heq in Ha. by apply Hact in Ha as [_ ?].
  - intros Hall. f_equal. apply set_eq. intros a. split.
    + intros Ha. apply Hact. split; [done | by apply Hall].
    + apply Hsub.
Qed.

(** The loop leaves at the first look at which it can. *)
Lemma poll_loop_leaves : forall d m st act fuel,
  looked env model m st act ->
  (forall j, (m < j < m + 1 + d)%nat -> ~ stops_at env model timeout j) ->
  stops_at env model timeout (m + 1 + d) ->
  (d < fuel)%nat ->
  exists st',
    poll_loop env fuel model timeout apps (S m) st act
    = Some (st', (m + 1 + d)%nat)
    /\ status_after env model (m + 1 + d) st'.
Proof.
  induction d as [|d IH]; intros m st act fuel Hlooked Hnot Hstop Hfuel;
    (destruct fuel as [|fuel]; [lia|]); simpl;
    pose proof (looked_S _ _ _ Hlooked) as Hnext; simpl in Hnext;
    pose proof (looked_all_active _ _ _ Hnext) as Hall.
  - replace (m + 1 + 0)%nat with (S m) in * by lia.
    case_bool_decide as Hsize; [eexists; split; [done | apply Hnext]|].
    destruct Hstop as [Hstop | Hstop]; [by apply Hall in Hstop|].
    rewrite bool_decide_true by done.
    eexists; split; [done | apply Hnext].
  - assert (~ stops_at env model timeout (S m)) as Hgo.
    { apply Hnot. lia. }
    rewrite bool_decide_false.
    2:{ intros Hsize. apply Hgo. left. by apply Hall. }
    rewrite bool_decide_false.
    2:{ intros Hlate. apply Hgo. by right. }
    replace (m + 1 + S d)%nat with (S m + 1 + d)%nat in * by lia.
    apply IH; [done | | done | lia].
    intros j Hj. apply Hnot. lia.
Qed.


Lemma get_model_status_unfold fuel s s1 :
  request_model env model s = (Return tt, s1) ->
  get_model_status env fuel model timeout s
  = match poll_loop env fuel model timeout apps 1 ∅ ∅ with
    | None => None
    | Some (apps_status, sleeps) =>
        Some (Return apps_status, later s1 0 (replicate sleeps (Sleep 1)))
    end.
Proof.
  intros Hreq. unfold get_model_status. unfold request_model in Hreq.
  rewrite Hreq. fold apps.
  destruct (poll_loop _ _ _ _ _ _ _ _) as [[apps_status sleeps]|]; [|done].
  unfold later. by rewrite Nat.add_0_r.
Qed.


End GetModelStatus.



(** [DeployBundleStep.is_skip] relies on it: it asks with
    [timeout=0] and answers [False] when an application it saw is not
    active. *)
Lemma DeployBundleStep_is_skip_not_active :
  (JujuSteps.DeployBundleStep_is_skip Examples.waiting_env 3 "openstack"
                                      Juju.JujuHelper)
  = Some (Return false,
          {| Juju.controller := Some Juju.ControllerObject;
             Juju.list_calls := 0;
             Juju.events := [Juju.Connect; Juju.GetModel "openstack";
                             Juju.Sleep 1] |}).
Proof. vm_compute. reflexivity. Qed.

(** * Further properties *)

(** ** More on [_request] ([service.py]) *)

Section RequestMore.
Import Service.

Lemma translate_error_raises {A} e error :
  exists x, @translate_error A e error = Raise x.
Proof.
  unfold translate_error.
  repeat (match goal with
          | |- context [py_in ?p error] =>
              destruct (py_in p error) as [[|]|?]
          end; eauto).
Qed.

(** X1.  On a response for which [raise_for_status()] raises,
    [_request] never returns a value: whatever the body holds, it
    raises. *)
Theorem request_error_never_returns response e :
  raise_for_status response = Raise e ->
  exists x, _request response = Raise x.
Proof.
  intros Hstatus. unfold _request. rewrite Hstatus.
  destruct (isinstance e HTTPError); [|by eexists].
  destruct (body response) as [j|x]; [|by eexists].
  destruct (json_get "error" j) as [error|x]; [|by eexists].
  apply translate_error_raises.
Qed.

Lemma request_error_never_returns_witness :
  exists x, _request MoreExamples.bare_error_response = Raise x.
Proof.
  apply (request_error_never_returns MoreExamples.bare_error_response
           Examples.http_500).
  reflexivity.
Defined.

Lemma json_get_missing key items :
  (forall v, (key, v) ∉ items) ->
  json_get key (JObj items) = Return JNull.
Proof.
  intros Hmissing. unfold json_get.
  destruct (list_find _ items) as [[i [k v]]|] eqn:Hfind; [|done].
  apply list_find_Some in Hfind as (Hlook & Hk & _). simpl in Hk. subst k.
  exfalso. apply (Hmissing v). by eapply list_elem_of_lookup_2.
Qed.

(** X2.  An error response whose JSON body is an object without an
    [error] key does not raise the [HTTPError]: [.get("error")] gives
    [None], the first substring test raises [TypeError], and that is
    what leaves [_request].  A body that is not an object at all
    gives [AttributeError] from [.get]. *)
Theorem request_error_without_text response e :
  raise_for_status response = Raise e ->
  isinstance e HTTPError = true ->
  (forall items,
      body response = Return (JObj items) ->
      (forall v, ("error", v) ∉ items) ->
      _request response
      = Raise (MkExc TypeError "argument of type 'NoneType' is not iterable"))
  /\ (forall text,
      body response = Return (JStr text) ->
      _request response
      = Raise (MkExc AttributeError "'str' object has no attribute 'get'")).
Proof.
  intros Hstatus Hhttp. split.
  - intros items Hbody Hmissing. unfold _request.
    rewrite Hstatus, Hhttp, Hbody, json_get_missing by done. reflexivity.
  - intros text Hbody. unfold _request.
    by rewrite Hstatus, Hhttp, Hbody.
Qed.

Lemma request_error_without_text_witness :
  _request MoreExamples.bare_error_response
  = Raise (MkExc TypeError "argument of type 'NoneType' is not iterable")
  /\ _request MoreExamples.text_error_response
     = Raise (MkExc AttributeError "'str' object has no attribute 'get'").
Proof.
  split.
  - apply (proj1 (request_error_without_text
                    MoreExamples.bare_error_response Examples.http_500
                    eq_refl eq_refl) _ eq_refl).
    intros v Hin.
    repeat (apply elem_of_cons in Hin as [Hin | Hin]; [discriminate Hin|]).
    by apply elem_of_nil in Hin.
  - apply (proj2 (request_error_without_text
                    MoreExamples.text_error_response Examples.http_500
                    eq_refl eq_refl) _ eq_refl).
Defined.

Lemma first_match_in table e s :
  first_match table e s = e \/ first_match table e s ∈ table.*2.
Proof.
  induction table as [|[pat fault] table IH]; simpl; [by left|].
  destruct (str_contains pat s).
  - right. by left.
  - destruct IH as [IH | IH]; [by left | right; by right].
Qed.

(** X3.  The faults of the translation are a closed set: on an error
    response with a string in the [error] field, what [_request]
    raises is the [HTTPError] itself or one of the four faults of the
    table, and each of those is a [RemoteException], is not an
    [HTTPError] and has a description that is not empty. *)
Theorem request_raises_closed_taxonomy response e j s :
  raise_for_status response = Raise e ->
  isinstance e HTTPError = true ->
  body response = Return j ->
  json_get "error" j = Return (JStr s) ->
  exists x,
    _request response = Raise x
    /\ (x = e
        \/ (x ∈ error_table.*2
            /\ isinstance x RemoteException = true
            /\ isinstance x HTTPError = false
            /\ exc_str x <> EmptyString)).
Proof.
  intros Hstatus Hhttp Hbody Herror.
  exists (first_match error_table e s). split.
  - unfold _request. rewrite Hstatus, Hhttp, Hbody, Herror.
    apply translate_error_table.
  - destruct (first_match_in error_table e s) as [Heq | Hin]; [by left|].
    right. split; [done|]. revert Hin.
    generalize (first_match error_table e s). intros x Hin.
    unfold error_table in Hin. simpl in Hin.
    repeat (apply elem_of_cons in Hin as [-> | Hin]; [by repeat split|]).
    by apply elem_of_nil in Hin.
Qed.

Lemma request_raises_closed_taxonomy_witness :
  exists x,
    _request Examples.token_taken_response = Raise x
    /\ (x = Examples.http_500
        \/ (x ∈ error_table.*2
            /\ isinstance x RemoteException = true
            /\ isinstance x HTTPError = false
            /\ exc_str x <> EmptyString)).
Proof.
  apply (request_raises_closed_taxonomy Examples.token_taken_response
           Examples.http_500 _ _ eq_refl eq_refl eq_refl eq_refl).
Defined.

End RequestMore.

(** ** [EnsureJujuInstalled._is_classic] ([juju.py]) *)

(** X4.  [_is_classic(channel)] looks at the text before the first
    ["/"], but answers as [channel.startswith("2.9")] does: it is the
    test [BootstrapJujuStep.run] makes on the channel before it adds
    [--agent-version]. *)
Theorem is_classic_startswith channel :
  JujuMore._is_classic channel = startswith "2.9" channel.
Proof.
  unfold JujuMore._is_classic.
  destruct channel as [|c1 [|c2 [|c3 rest]]]; simpl;
    repeat case_bool_decide; subst; simpl;
    repeat case_bool_decide; subst; try done.
Qed.

(** ** More on the cluster steps ([clusterd.py]) *)

Section ClusterMore.
Import Clusterd.

Lemma membership_is_skip_listed client who members :
  get_cluster_members client = Return members ->
  exists b : bool,
    membership_is_skip client who = Return b
    /\ (b = true <->
        exists member, member ∈ members /\ member !! "name" = Some who).
Proof.
  intros Hprobe. unfold membership_is_skip. rewrite Hprobe.
  assert (Some who ∈ member_names members <->
          exists member, member ∈ members /\ member !! "name" = Some who)
    as Hiff.
  { unfold member_names. rewrite list_elem_of_In, in_map_iff. split.
    - intros (member & Hname & Hin). exists member.
      by rewrite list_elem_of_In.
    - intros (member & Hin & Hname). exists member.
      by rewrite <- list_elem_of_In. }
  case_bool_decide as Hin.
  - exists true. split; [done|]. split; [intros _; by apply Hiff | done].
  - exists false. split; [done|]. split; [done|].
    intros Hmember. by apply Hiff in Hmember.
Qed.

(** X5.  When [get_cluster_members()] returns, each of the three
    [is_skip] returns, and returns [True] exactly when one of the
    members has the name looked for under the key [name] (the host's
    name for [ClusterInitStep] and [ClusterJoinNodeStep], the node
    asked for for [ClusterAddNodeStep]); members without that key do
    not count. *)
Theorem cluster_is_skip_iff_member members :
  (forall self : ClusterInitStep,
      get_cluster_members (init_client self) = Return members ->
      exists b : bool,
        ClusterInitStep_is_skip self = Return b
        /\ (b = true <->
            exists member, member ∈ members
                           /\ member !! "name" = Some (init_fqdn self)))
  /\ (forall self : ClusterAddNodeStep,
      get_cluster_members (add_client self) = Return members ->
      exists b : bool,
        ClusterAddNodeStep_is_skip self = Return b
        /\ (b = true <->
            exists member, member ∈ members
                           /\ member !! "name" = Some (node_name self)))
  /\ (forall self : ClusterJoinNodeStep,
      get_cluster_members (join_client self) = Return members ->
      exists b : bool,
        ClusterJoinNodeStep_is_skip self = Return b
        /\ (b = true <->
            exists member, member ∈ members
                           /\ member !! "name" = Some (join_fqdn self))).
Proof.
  repeat split; intros self Hprobe;
    by apply membership_is_skip_listed.
Qed.

Lemma cluster_is_skip_iff_member_witness :
  exists b : bool,
    ClusterInitStep_is_skip Examples.init_member = Return b
    /\ (b = true <->
        exists member : gmap string string,
          member ∈ [ ({[ "name" := "node-a" ]} : gmap string string) ]
          /\ member !! "name" = Some "node-a").
Proof.
  apply (proj1 (cluster_is_skip_iff_member
                  [ ({[ "name" := "node-a" ]} : gmap string string) ])
           Examples.init_member).
  reflexivity.
Defined.

(** X6.  [ClusterInitStep.run] never raises: it returns COMPLETED when
    [bootstrap] returns, and for every exception [bootstrap] raises it
    returns FAILED with [str(e)] as the message. *)
Theorem ClusterInitStep_run_never_raises self :
  exists r,
    ClusterInitStep_run self = Return r
    /\ (bootstrap (init_client self) (init_fqdn self)
                  (address_of (init_ip self)) = Return tt ->
        r = MkResult COMPLETED MNone)
    /\ (forall e,
          bootstrap (init_client self) (init_fqdn self)
                    (address_of (init_ip self)) = Raise e ->
          r = MkResult FAILED (MStr (exc_str e))).
Proof.
  unfold ClusterInitStep_run.
  destruct (bootstrap _ _ _) as [[]|e].
  - eexists. split; [done|]. split; [done|]. intros e He. discriminate He.
  - rewrite isinstance_Exception. eexists. split; [done|].
    split; [intros He; discriminate He|]. by intros e0 [= <-].
Qed.

(** X7.  [ClusterJoinNodeStep.run] never returns COMPLETED: a result
    it returns is FAILED, made from a [NodeAlreadyExistsException] or
    a [NodeJoinException] that [join_node] raised, with [str(e)] as
    the message. *)
Theorem ClusterJoinNodeStep_run_never_completed self r :
  ClusterJoinNodeStep_run self = Return r ->
  exists e,
    join_node (join_client self) (join_fqdn self)
              (address_of (join_ip self)) (join_token self) = Raise e
    /\ (isinstance e NodeAlreadyExistsException = true
        \/ isinstance e NodeJoinException = true)
    /\ r = MkResult FAILED (MStr (exc_str e)).
Proof.
  unfold ClusterJoinNodeStep_run.
  destruct (join_node _ _ _ _) as [[]|e]; [discriminate|].
  destruct (isinstance e NodeAlreadyExistsException) eqn:Hexists; simpl.
  - intros [= <-]. exists e. split; [done|]. split; [by left | done].
  - destruct (isinstance e NodeJoinException) eqn:Hjoin; [|discriminate].
    intros [= <-]. exists e. split; [done|]. split; [by right | done].
Qed.

Lemma ClusterJoinNodeStep_run_never_completed_witness :
  exists e,
    join_node (join_client MoreExamples.join_conflict) "node-b"
              (address_of "10.0.0.6") "TOKEN" = Raise e
    /\ (isinstance e NodeAlreadyExistsException = true
        \/ isinstance e NodeJoinException = true)
    /\ MkResult FAILED (MStr "Already node exists in the microstack cluster")
       = MkResult FAILED (MStr (exc_str e)).
Proof.
  apply (ClusterJoinNodeStep_run_never_completed MoreExamples.join_conflict
           (MkResult FAILED
              (MStr "Already node exists in the microstack cluster"))).
  vm_compute. reflexivity.
Defined.

End ClusterMore.

(** ** More on the plan loop ([bootstrap.py]) *)

Section PlanMore.
Import Bootstrap Traces.
Context {W : Type}.
Implicit Types (plan rest pre post : list (Step W)) (step : Step W) (w : W).
Implicit Types (t : list Event) (ending : Ending).

Ltac loop_cases H :=
  apply run_plan_from_cons in H
    as [(?e & ?Hskip & -> & ->)
       | [(?w1 & ?t' & ?Hskip & ?Hrest & ->)
         | [(?w1 & ?e & ?Hskip & ?Hrun & -> & ->)
           | [(?w1 & ?r & ?Hskip & ?Hrun & ?Hfailed & -> & ->)
             | (?w1 & ?w2 & ?r & ?t' & ?Hskip & ?Hrun & ?Hfailed
                & ?Hrest & ->)]]]].

(** X8.  The loop over a plan made of two parts is the loop over the
    first part and then, if that one returns, the loop over the second
    part from the state it left, the positions counted on; when the
    first part ends with an exception the second part is not
    started. *)
Theorem run_plan_from_app pre post : forall k w,
  run_plan_from k (pre ++ post) w
  = match run_plan_from k pre w with
    | (Returned, w1, t1) =>
        let '(ending, w2, t2) :=
          run_plan_from (k + length pre) post w1 in
        (ending, w2, t1 ++ t2)
    | r => r
    end.
Proof.
  induction pre as [|step pre IH]; intros k w.
  - simpl. rewrite Nat.add_0_r.
    by destruct (run_plan_from k post w) as [[ending w2] t2].
  - simpl. destruct (is_skip step w) as [[[|]|e] w1]; [| |done].
    + rewrite IH. replace (S k + length pre)%nat with (k + S (length pre))%nat
        by lia.
      destruct (run_plan_from (S k) pre w1) as [[[| |] w2] t1]; try done.
      by destruct (run_plan_from _ post w2) as [[ending w3] t2].
    + destruct (run step w1) as [[r|e] w2]; [|done].
      case_bool_decide; [done|].
      rewrite IH. replace (S k + length pre)%nat with (k + S (length pre))%nat
        by lia.
      destruct (run_plan_from (S k) pre w2) as [[[| |] w3] t1]; try done.
      by destruct (run_plan_from _ post w3) as [[ending w4] t2].
Qed.

(** How a run from any position ends, and what it has printed. *)
Lemma run_plan_from_ending plan : forall k w ending w' t,
  run_plan_from k plan w = (ending, w', t) ->
  match ending with
  | Returned =>
      console_lines t = map done_text plan
      /\ forall i step, plan !! i = Some step ->
           (IsSkip (k + i) (Return true) ∈ t)
           \/ exists r, Run (k + i) (Return r) ∈ t /\ result_type r <> FAILED
  | ClickException m =>
      exists i step r t0,
        plan !! i = Some step
        /\ t = t0 ++ [Run (k + i) (Return r); finished_line step r;
                      failed_line step]
        /\ result_type r = FAILED
        /\ m = message r
        /\ console_lines t = map done_text (take i plan) ++ [failed_text step]
  | Uncaught e =>
      exists i step t0,
        plan !! i = Some step
        /\ (t = t0 ++ [IsSkip (k + i) (Raise e)]
            \/ t = t0 ++ [Run (k + i) (Raise e)])
        /\ console_lines t = map done_text (take i plan)
  end.
Proof.
  induction plan as [|step rest IH]; intros k w ending w' t Hplan.
  - injection Hplan as <- <- <-. split; [done|]. intros i step Hlook.
    by rewrite lookup_nil in Hlook.
  - loop_cases Hplan.
    + exists 0%nat, step, [starting_line step]. rewrite Nat.add_0_r.
      split; [done|]. split; [by left | done].
    + specialize (IH _ _ _ _ _ Hrest). destruct ending as [|m|e].
      * destruct IH as [Hlines Hall]. split.
        { simpl. by rewrite <- Hlines. }
        intros [|i] step' Hlook.
        -- rewrite Nat.add_0_r. left. by right; left.
        -- destruct (Hall i step' Hlook) as [Hin | (r & Hin & Hr)];
             replace (k + S i)%nat with (S k + i)%nat by lia.
           ++ left. by do 4 right.
           ++ right. exists r. split; [by do 4 right | done].
      * destruct IH as (i & step' & r & t0 & Hlook & -> & Hr & -> & Hlines).
        exists (S i), step', r, (starting_line step :: IsSkip k (Return true)
                                 :: skipping_line step :: done_line step :: t0).
        replace (k + S i)%nat with (S k + i)%nat by lia.
        split; [done|]. split; [done|]. split; [done|]. split; [done|].
        simpl. simpl in Hlines. by rewrite Hlines.
      * destruct IH as (i & step' & t0 & Hlook & Ht & Hlines).
        exists (S i), step', (starting_line step :: IsSkip k (Return true)
                              :: skipping_line step :: done_line step :: t0).
        replace (k + S i)%nat with (S k + i)%nat by lia.
        split; [done|]. split.
        { destruct Ht as [-> | ->]; [by left | by right]. }
        simpl. simpl in Hlines. by rewrite Hlines.
    + exists 0%nat, step, [starting_line step; IsSkip k (Return false);
                           running_line step]. rewrite Nat.add_0_r.
      split; [done|]. split; [by right | done].
    + exists 0%nat, step, r, [starting_line step; IsSkip k (Return false);
                              running_line step]. rewrite Nat.add_0_r.
      by repeat split.
    + specialize (IH _ _ _ _ _ Hrest). destruct ending as [|m|e].
      * destruct IH as [Hlines Hall]. split.
        { simpl. by rewrite <- Hlines. }
        intros [|i] step' Hlook.
        -- rewrite Nat.add_0_r. right. exists r. split; [|done].
           by do 3 right; left.
        -- destruct (Hall i step' Hlook) as [Hin | (r' & Hin & Hr)];
             replace (k + S i)%nat with (S k + i)%nat by lia.
           ++ left. by do 6 right.
           ++ right. exists r'. split; [by do 6 right | done].
      * destruct IH as (i & step' & r' & t0 & Hlook & -> & Hr & -> & Hlines).
        exists (S i), step', r',
          (starting_line step :: IsSkip k (Return false) :: running_line step
           :: Run k (Return r) :: finished_line step r :: done_line step :: t0).
        replace (k + S i)%nat with (S k + i)%nat by lia.
        split; [done|]. split; [done|]. split; [done|]. split; [done|].
        simpl. simpl in Hlines. by rewrite Hlines.
      * destruct IH as (i & step' & t0 & Hlook & Ht & Hlines).
        exists (S i), step',
          (starting_line step :: IsSkip k (Return false) :: running_line step
           :: Run k (Return r) :: finished_line step r :: done_line step :: t0).
        replace (k + S i)%nat with (S k + i)%nat by lia.
        split; [done|]. split.
        { destruct Ht as [-> | ->]; [by left | by right]. }
        simpl. simpl in Hlines. by rewrite Hlines.
Qed.

(** X9.  When the plan loop returns, it has printed one line per
    step of the plan, in the order of the plan, each the step's
    description with "done", skipped or run alike; and every step was
    either skipped or run to a result that is not FAILED. *)
Theorem completed_plan_handles_every_step plan w w' t :
  run_plan plan w = (Returned, w', t) ->
  console_lines t = map done_text plan
  /\ forall i step, plan !! i = Some step ->
       (IsSkip i (Return true) ∈ t)
       \/ exists r, Run i (Return r) ∈ t /\ result_type r <> FAILED.
Proof.
  intros Hplan. apply run_plan_from_ending in Hplan. exact Hplan.
Qed.

(** X10.  The plan loop raises [click.ClickException] only for a
    FAILED result: when it ends with [ClickException(m)], some step
    returned a FAILED result whose message is [m], that call is the
    last one made, and the console shows "done" for the steps before
    it and "failed" for it. *)
Theorem click_exception_only_from_failed_step plan w w' t m :
  run_plan plan w = (ClickException m, w', t) ->
  exists i step r t0,
    plan !! i = Some step
    /\ t = t0 ++ [Run i (Return r); finished_line step r; failed_line step]
    /\ result_type r = FAILED
    /\ m = message r
    /\ console_lines t = map done_text (take i plan) ++ [failed_text step].
Proof.
  intros Hplan. apply run_plan_from_ending in Hplan. exact Hplan.
Qed.

(** X11.  When an exception leaves the plan loop, it was raised by
    the [is_skip()] or the [run()] of a step, that call is the last
    event of the trace, and the console shows "done" for the steps
    before it and nothing for it: an [is_skip()] that raises ends the
    command as a [run()] that raises does. *)
Theorem uncaught_exception_from_step_call plan w w' t e :
  run_plan plan w = (Uncaught e, w', t) ->
  exists i step t0,
    plan !! i = Some step
    /\ (t = t0 ++ [IsSkip i (Raise e)] \/ t = t0 ++ [Run i (Raise e)])
    /\ console_lines t = map done_text (take i plan).
Proof.
  intros Hplan. apply run_plan_from_ending in Hplan. exact Hplan.
Qed.

End PlanMore.

Lemma completed_plan_handles_every_step_witness :
  Traces.console_lines
    (Bootstrap.run_plan Examples.member_plan Juju.JujuHelper).2
  = ["Bootstrapping microstack cluster ... [green]done[/green]"].
Proof.
  apply (proj1 (completed_plan_handles_every_step Examples.member_plan
                  Juju.JujuHelper Juju.JujuHelper _
                  ltac:(vm_compute; reflexivity))).
Defined.

Lemma click_exception_only_from_failed_step_witness :
  exists i (step : Bootstrap.Step unit) r t0,
    Examples.sample_plan !! i = Some step
    /\ (Bootstrap.run_plan Examples.sample_plan tt).2
       = t0 ++ [Bootstrap.Run i (Return r); Bootstrap.finished_line step r;
                Bootstrap.failed_line step]
    /\ result_type r = FAILED
    /\ MStr "Token already generated for the node" = message r
    /\ Traces.console_lines (Bootstrap.run_plan Examples.sample_plan tt).2
       = map (Traces.done_text (W:=unit)) (take i Examples.sample_plan)
         ++ [Traces.failed_text step].
Proof.
  apply (click_exception_only_from_failed_step Examples.sample_plan tt tt).
  vm_compute. reflexivity.
Defined.

Lemma uncaught_exception_from_step_call_witness :
  exists i (step : Bootstrap.Step unit) t0,
    [Steps.of_ClusterJoinNodeStep Examples.join_willing] !! i = Some step
    /\ ((Bootstrap.run_plan
           [Steps.of_ClusterJoinNodeStep Examples.join_willing] tt).2
        = t0 ++ [Bootstrap.IsSkip i
                   (Raise (MkExc NameError "name 'token' is not defined"))]
        \/ (Bootstrap.run_plan
              [Steps.of_ClusterJoinNodeStep Examples.join_willing] tt).2
           = t0 ++ [Bootstrap.Run i
                      (Raise (MkExc NameError "name 'token' is not defined"))])
    /\ Traces.console_lines
         (Bootstrap.run_plan
            [Steps.of_ClusterJoinNodeStep Examples.join_willing] tt).2
       = map (Traces.done_text (W:=unit))
             (take i [Steps.of_ClusterJoinNodeStep Examples.join_willing]).
Proof.
  apply (uncaught_exception_from_step_call
           [Steps.of_ClusterJoinNodeStep Examples.join_willing] tt tt).
  vm_compute. reflexivity.
Defined.

(** ** The pre-flight checks ([bootstrap.py]) *)

Section PreflightChecks.
Import Preflight.
Context {W : Type}.
Implicit Types (checks : list (Check W)) (w : W) (t : list Event).

Lemma check_run_from checks : forall k w ending w' t,
  run_checks_from k checks w = (ending, w', t) ->
  forall j o, CheckRun j o ∈ t -> (k <= j)%nat.
Proof.
  induction checks as [|check rest IH]; intros k w ending w' t Hrun j o Hin.
  - injection Hrun as <- <- <-. by apply elem_of_nil in Hin.
  - simpl in Hrun. destruct (run check w) as [[[|]|e] w1].
    + destruct (run_checks_from (S k) rest w1) as [[ending1 w2] t1] eqn:Hrest.
      injection Hrun as <- <- <-.
      repeat (apply elem_of_cons in Hin as [Hin | Hin]);
        try discriminate Hin.
      * injection Hin as -> _. lia.
      * eapply IH in Hin; [|done]. lia.
    + injection Hrun as <- <- <-.
      repeat (apply elem_of_cons in Hin as [Hin | Hin]);
        try discriminate Hin; try (by apply elem_of_nil in Hin).
      injection Hin as -> _. lia.
    + injection Hrun as <- <- <-.
      repeat (apply elem_of_cons in Hin as [Hin | Hin]);
        try discriminate Hin; try (by apply elem_of_nil in Hin).
      injection Hin as -> _. lia.
Qed.

Lemma failed_check_stops_from checks : forall k w ending w' t i,
  run_checks_from k checks w = (ending, w', t) ->
  CheckRun i (Return false) ∈ t ->
  exists check t0,
    (k <= i)%nat
    /\ checks !! (i - k)%nat = Some check
    /\ t = t0 ++ [CheckRun i (Return false);
                  ConsolePrint ((description check +:+ " ... ")
                                +:+ "[red]failed[/red]");
                  ConsolePrint EmptyString]
    /\ ending = Bootstrap.ClickException (message check w')
    /\ forall j o, CheckRun j o ∈ t -> (j <= i)%nat.
Proof.
  induction checks as [|check rest IH]; intros k w ending w' t i Hrun Hin.
  - injection Hrun as <- <- <-. by apply elem_of_nil in Hin.
  - simpl in Hrun. destruct (run check w) as [[[|]|e] w1].
    + destruct (run_checks_from (S k) rest w1) as [[ending1 w2] t1] eqn:Hrest.
      injection Hrun as <- <- <-.
      repeat (apply elem_of_cons in Hin as [Hin | Hin]);
        try discriminate Hin.
      destruct (IH _ _ _ _ _ _ Hrest Hin)
        as (check' & t0 & Hle & Hlook & -> & -> & Hlast).
      exists check', (LogDebug ("Starting pre-flight check " +:+ name check)
                      :: CheckRun k (Return true)
                      :: ConsolePrint ((description check +:+ " ... ")
                                       +:+ "[green]done[/green]") :: t0).
      split; [lia|]. split.
      { replace (i - k)%nat with (S (i - S k)) by lia. exact Hlook. }
      split; [done|]. split; [done|].
      intros j o Hj.
      repeat (apply elem_of_cons in Hj as [Hj | Hj]); try discriminate Hj.
      * injection Hj as -> _. lia.
      * by eapply Hlast.
    + injection Hrun as <- <- <-.
      repeat (apply elem_of_cons in Hin as [Hin | Hin]);
        try discriminate Hin; try (by apply elem_of_nil in Hin).
      injection Hin as ->.
      exists check, [LogDebug ("Starting pre-flight check " +:+ name check)].
      split; [lia|]. split; [by rewrite Nat.sub_diag|].
      split; [done|]. split; [done|].
      intros j o Hj.
      repeat (apply elem_of_cons in Hj as [Hj | Hj]);
        try discriminate Hj; try (by apply elem_of_nil in Hj).
      injection Hj as -> _. lia.
    + injection Hrun as <- <- <-.
      repeat (apply elem_of_cons in Hin as [Hin | Hin]);
        try discriminate Hin; try (by apply elem_of_nil in Hin).
Qed.

(** X12.  A pre-flight check whose [run()] answers [False] ends the
    command: the console shows its description with "failed" and an
    empty line, the loop raises [click.ClickException(check.message)],
    no check after it is run, and neither the helper nor the plan is
    made: the plan loop is not started. *)
Theorem failed_check_stops_bootstrap checks w ending w' t i :
  run_checks checks w = (ending, w', t) ->
  CheckRun i (Return false) ∈ t ->
  exists check t0,
    checks !! i = Some check
    /\ t = t0 ++ [CheckRun i (Return false);
                  ConsolePrint ((description check +:+ " ... ")
                                +:+ "[red]failed[/red]");
                  ConsolePrint EmptyString]
    /\ ending = Bootstrap.ClickException (message check w')
    /\ (forall j o, CheckRun j o ∈ t -> (j <= i)%nat)
    /\ forall env role plan,
        bootstrap_from_checks checks w env role plan = (ending, w', t, None).
Proof.
  intros Hrun Hin.
  destruct (failed_check_stops_from _ _ _ _ _ _ _ Hrun Hin)
    as (check & t0 & _ & Hlook & Ht & Hending & Hlast).
  rewrite Nat.sub_0_r in Hlook. exists check, t0.
  split; [done|]. split; [done|]. split; [done|]. split; [done|].
  intros env role plan. unfold bootstrap_from_checks.
  rewrite Hrun, Hending. reflexivity.
Qed.

End PreflightChecks.

Lemma failed_check_stops_bootstrap_witness :
  exists (check : Preflight.Check unit) t0,
    MoreExamples.snap_checks !! 1%nat = Some check
    /\ (Preflight.run_checks MoreExamples.snap_checks tt).2
       = t0 ++ [Preflight.CheckRun 1 (Return false);
                Preflight.ConsolePrint
                  ((Preflight.description check +:+ " ... ")
                   +:+ "[red]failed[/red]");
                Preflight.ConsolePrint EmptyString]
    /\ (Preflight.run_checks MoreExamples.snap_checks tt).1.1
       = Bootstrap.ClickException (Preflight.message check tt)
    /\ (forall j o,
          Preflight.CheckRun j o
          ∈ (Preflight.run_checks MoreExamples.snap_checks tt).2 ->
          (j <= 1)%nat)
    /\ forall env role plan,
        Preflight.bootstrap_from_checks MoreExamples.snap_checks tt
                                        env role plan
        = (Preflight.run_checks MoreExamples.snap_checks tt, None).
Proof.
  apply (failed_check_stops_bootstrap MoreExamples.snap_checks tt
           (Preflight.run_checks MoreExamples.snap_checks tt).1.1 tt
           (Preflight.run_checks MoreExamples.snap_checks tt).2 1).
  - reflexivity.
  - vm_compute. do 4 apply list_elem_of_further. apply list_elem_of_here.
Defined.

(** ** More on [JujuHelper] ([juju.py]) *)

Section HelperMore.
Import Juju Observed.
Variable env : Env.

(** X13.  [add_model] never raises and leaves [self.controller] set;
    it returns [True] exactly when the connection, if one had to be
    made, and [controller.add_model(model)] both returned. *)
Theorem add_model_true_iff model s :
  exists (b : bool) s',
    add_model env model s = (Return b, s')
    /\ is_Some (controller s')
    /\ (b = true <->
        (is_Some (controller s) \/ connect env = Return tt)
        /\ add_model_call env model = Return tt).
Proof.
  unfold add_model, try_except, bind, ret, ensure_controller, await.
  destruct (controller s) as [c|] eqn:Hc.
  - destruct (add_model_call env model) as [[]|e] eqn:Hadd; simpl.
    + eexists _, _. split; [done|]. simpl. rewrite Hc.
      split; [by eexists|]. split; [intros _|done].
      split; [left; by eexists | done].
    + rewrite isinstance_Exception. eexists _, _. split; [done|]. simpl.
      rewrite Hc. split; [by eexists|]. split; [done|]. by intros [_ ?].
  - destruct (connect env) as [[]|e] eqn:Hconnect; simpl.
    + destruct (add_model_call env model) as [[]|e] eqn:Hadd; simpl.
      * eexists _, _. split; [done|]. simpl.
        split; [by eexists|]. split; [intros _|done].
        split; [by right | done].
      * rewrite isinstance_Exception. eexists _, _. split; [done|]. simpl.
        split; [by eexists|]. split; [done|]. by intros [_ ?].
    + rewrite isinstance_Exception. eexists _, _. split; [done|]. simpl.
      split; [by eexists|]. split; [done|].
      intros [[[c Hsome] | Hok] _]; [discriminate Hsome | discriminate Hok].
Qed.

(** X14.  A connection that failed is not tried again:
    [self.controller] is set before [connect()] is awaited, so after
    an [add_model] whose [connect()] raised, [get_models] goes
    straight to [list_models()] on the controller that never
    connected, and [disconnect_controller] calls [disconnect()] on it
    instead of raising [AttributeError]. *)
Theorem failed_connect_is_not_retried model s e :
  controller s = None ->
  connect env = Raise e ->
  exists s1,
    add_model env model s = (Return false, s1)
    /\ events s1 = events s ++ [Connect]
    /\ get_models env s1
       = (Return (models_seen env (list_calls s1)), later s1 1 [ListModels])
    /\ disconnect_controller env s1 = await Disconnect (disconnect env) s1.
Proof.
  intros Hc Hconnect.
  unfold add_model, try_except, bind, ret, ensure_controller, await.
  rewrite Hc, Hconnect, isinstance_Exception. eexists. split; [done|].
  split; [done|]. split.
  - apply get_models_connected. by eexists.
  - reflexivity.
Qed.

Lemma get_models_failing s :
  (controller s = None /\ exists e, connect env = Raise e)
  \/ (exists e, list_models env (list_calls s) = Raise e) ->
  exists s1, get_models env s = (Return [], s1).
Proof.
  unfold get_models, try_except, bind, ret, ensure_controller,
    controller_list_models, await.
  intros [[Hc [e He]] | [e He]].
  - rewrite Hc, He, isinstance_Exception. by eexists.
  - destruct (controller s).
    + simpl. rewrite He, isinstance_Exception. by eexists.
    + destruct (connect env) as [[]|e0]; simpl.
      * rewrite He, isinstance_Exception. by eexists.
      * rewrite isinstance_Exception. by eexists.
Qed.

(** X15.  When the list of models cannot be had (the first connection
    raises, or [list_models()] raises), [get_models] gives [[]] and
    every model counts as absent: [CreateModelStep.is_skip] answers
    [False], and the [is_skip] of [DestroyModelStep],
    [ModelStatusStep], [WriteModelStatusStep] and [WriteCharmLog]
    answer [True]; none of them raises. *)
Theorem unlisted_models_count_as_absent s model :
  (controller s = None /\ exists e, connect env = Raise e)
  \/ (exists e, list_models env (list_calls s) = Raise e) ->
  (JujuSteps.CreateModelStep_is_skip env model s).1 = Return false
  /\ (JujuSteps.DestroyModelStep_is_skip env model s).1 = Return true
  /\ (JujuSteps.ModelStatusStep_is_skip env model s).1 = Return true
  /\ (JujuMore.WriteModelStatusStep_is_skip env model s).1 = Return true
  /\ (JujuMore.WriteCharmLog_is_skip env model s).1 = Return true.
Proof.
  intros Hfail. destruct (get_models_failing s Hfail) as [s1 Hget].
  unfold JujuSteps.CreateModelStep_is_skip, JujuSteps.DestroyModelStep_is_skip,
    JujuSteps.ModelStatusStep_is_skip, JujuMore.WriteModelStatusStep_is_skip,
    JujuMore.WriteCharmLog_is_skip, JujuSteps.check_model_present, bind, ret.
  rewrite Hget. simpl. done.
Qed.

(** X16.  [destroy_model] never looks at the list of models unless
    the request went through: a request that raises (the connection or
    [destroy_models]) gives [False] at once, with or without [wait];
    and with [wait=False] a request that went through gives [True] at
    once. *)
Theorem destroy_model_request model_name s :
  (forall e s1 wait,
      request_destroy env model_name s = (Raise e, s1) ->
      destroy_model env model_name wait s = (Return false, s1))
  /\ (forall s1,
      request_destroy env model_name s = (Return tt, s1) ->
      destroy_model env model_name false s = (Return true, s1)).
Proof.
  unfold destroy_model, request_destroy, try_except, bind, ret.
  split.
  - intros e s1 wait.
    destruct (ensure_controller env s) as [[[]|e0] s0].
    + destruct (await _ _ s0) as [[[]|e1] s2]; [discriminate|].
      intros [= <- <-]. by rewrite isinstance_Exception.
    + intros [= <- <-]. by rewrite isinstance_Exception.
  - intros s1.
    destruct (ensure_controller env s) as [[[]|e0] s0]; [|discriminate].
    destruct (await _ _ s0) as [[[]|e1] s2]; [|discriminate].
    by intros [= <-].
Qed.

End HelperMore.

Lemma failed_connect_is_not_retried_witness :
  exists s1,
    Juju.add_model MoreExamples.unreachable_env "openstack" Juju.JujuHelper
    = (Return false, s1)
    /\ Juju.events s1 = [Juju.Connect]
    /\ Juju.get_models MoreExamples.unreachable_env s1
       = (Return ["controller"; "openstack"],
          Observed.later s1 1 [Juju.ListModels])
    /\ Juju.disconnect_controller MoreExamples.unreachable_env s1
       = Juju.await Juju.Disconnect (Return tt) s1.
Proof.
  apply (failed_connect_is_not_retried MoreExamples.unreachable_env
           "openstack" Juju.JujuHelper
           (MkExc Exception "connection refused") eq_refl eq_refl).
Defined.

Lemma unlisted_models_count_as_absent_witness :
  (JujuSteps.CreateModelStep_is_skip MoreExamples.unreachable_env
                                     "openstack" Juju.JujuHelper).1
  = Return false
  /\ (JujuSteps.DestroyModelStep_is_skip MoreExamples.unreachable_env
                                         "openstack" Juju.JujuHelper).1
     = Return true.
Proof.
  destruct (unlisted_models_count_as_absent MoreExamples.unreachable_env
              Juju.JujuHelper "openstack")
    as (Hcreate & Hdestroy & _).
  - left. split; [reflexivity|]. by eexists.
  - by split.
Defined.

Lemma destroy_model_request_witness :
  Juju.destroy_model MoreExamples.unreachable_env "openstack" true
                     Juju.JujuHelper
  = (Return false,
     {| Juju.controller := Some Juju.ControllerObject;
        Juju.list_calls := 0;
        Juju.events := [Juju.Connect] |})
  /\ Juju.destroy_model Examples.stuck_env "openstack" false Juju.JujuHelper
     = (Return true,
        {| Juju.controller := Some Juju.ControllerObject;
           Juju.list_calls := 0;
           Juju.events := [Juju.Connect; Juju.DestroyModels "openstack"] |}).
Proof.
  split.
  - apply (proj1 (destroy_model_request MoreExamples.unreachable_env
                    "openstack" Juju.JujuHelper)
             (MkExc Exception "connection refused")).
    reflexivity.
  - apply (proj2 (destroy_model_request Examples.stuck_env
                    "openstack" Juju.JujuHelper)).
    reflexivity.
Defined.

(** ** More on [get_model_status] and its callers ([juju.py]) *)

Section StatusMore.
Import Juju Observed.
Variable env : Env.
Variable model : string.

(** Whenever the loop leaves, it leaves at the first look at which it
    can. *)
Lemma poll_loop_sound timeout : forall fuel m st act st' n,
  looked env model m st act ->
  poll_loop env fuel model timeout (dom (applications env model 0))
            (S m) st act = Some (st', n) ->
  (m < n <= m + fuel)%nat
  /\ stops_at env model timeout n
  /\ (forall j, (m < j < n)%nat -> ~ stops_at env model timeout j)
  /\ status_after env model n st'.
Proof.
  induction fuel as [|fuel IH]; intros m st act st' n Hlooked; [discriminate|].
  simpl.
  pose proof (looked_S env model _ _ _ Hlooked) as Hnext; simpl in Hnext.
  pose proof (looked_all_active env model _ _ _ Hnext) as Hall.
  case_bool_decide as Hsize.
  - intros [= <- <-]. split; [lia|]. split; [left; by apply Hall|].
    split; [intros j Hj; lia | apply Hnext].
  - case_bool_decide as Hlate.
    + intros [= <- <-]. split; [lia|]. split; [by right|].
      split; [intros j Hj; lia | apply Hnext].
    + intros Hloop. destruct (IH _ _ _ _ _ Hnext Hloop)
        as (Hn & Hstop & Hnot & Hst).
      split; [lia|]. split; [done|]. split; [|done].
      intros j Hj. destruct (decide (j = S m)) as [-> | Hne].
      * intros [Hactive | Hpast]; [by apply Hall in Hactive | done].
      * apply Hnot. lia.
Qed.

(** X17.  When the model cannot be had (the connection or
    [get_model] raises), [get_model_status] returns the empty mapping
    at once: it does not sleep, does not look and does not raise,
    whatever the timeout. *)
Theorem get_model_status_without_model fuel timeout s e s1 :
  request_model env model s = (Raise e, s1) ->
  get_model_status env fuel model timeout s = Some (Return ∅, s1).
Proof.
  intros Hreq. unfold get_model_status. unfold request_model in Hreq.
  by rewrite Hreq, isinstance_Exception.
Qed.

(** X18.  Whatever [get_model_status] returns once the model is at
    hand, it returns after [n >= 1] sleeps of one unit, where [n] is
    the first look at which every known application had shown "active"
    or the deadline had passed; the mapping holds the status last seen
    of each application known at the start, and no other key:
    applications that appear later are not reported. *)
Theorem get_model_status_sound fuel timeout s s1 apps_status s' :
  request_model env model s = (Return tt, s1) ->
  get_model_status env fuel model timeout s = Some (Return apps_status, s') ->
  exists n,
    (1 <= n <= fuel)%nat
    /\ s' = later s1 0 (replicate n (Sleep 1))
    /\ stops_at env model timeout n
    /\ (forall j, (1 <= j < n)%nat -> ~ stops_at env model timeout j)
    /\ status_after env model n apps_status
    /\ dom apps_status ⊆ dom (applications env model 0).
Proof.
  intros Hreq. rewrite (get_model_status_unfold env model timeout _ _ _ Hreq).
  destruct (poll_loop _ _ _ _ _ _ _ _) as [[st n]|] eqn:Hloop; [|discriminate].
  intros [= <- <-].
  destruct (poll_loop_sound _ _ _ _ _ _ _ (looked_0 env model) Hloop)
    as (Hn & Hstop & Hnot & Hst).
  exists n. split; [lia|]. split; [done|]. split; [done|].
  split; [intros j Hj; apply Hnot; lia|]. split; [done|].
  intros a Ha. apply elem_of_dom in Ha as [v Hv].
  rewrite (Hst a) in Hv. by case_decide.
Qed.

(** X19.  For a model without applications [get_model_status] sleeps
    once and returns the empty mapping, whatever the timeout: zero
    applications out of zero are active at the first look. *)
Theorem get_model_status_no_applications fuel timeout s s1 :
  request_model env model s = (Return tt, s1) ->
  applications env model 0 = ∅ ->
  (1 <= fuel)%nat ->
  get_model_status env fuel model timeout s
  = Some (Return ∅, later s1 0 [Sleep 1]).
Proof.
  intros Hreq Hempty Hfuel.
  rewrite (get_model_status_unfold env model timeout _ _ _ Hreq).
  destruct (poll_loop_leaves env model timeout 0 0 ∅ ∅ fuel (looked_0 env model))
    as (st & -> & Hst).
  - intros j Hj. lia.
  - left. intros a Ha. rewrite Hempty, dom_empty_L in Ha.
    by apply not_elem_of_empty in Ha.
  - lia.
  - assert (st = ∅) as ->; [|done]. apply map_eq. intros a.
    rewrite (Hst a), lookup_empty. case_decide as Ha; [|done].
    rewrite Hempty, dom_empty_L in Ha. by apply not_elem_of_empty in Ha.
Qed.

(** X20.  [DeployBundleStep.is_skip] looks once (it asks with
    [timeout=0]) and answers [True] exactly when, at that look, at
    least one application known at the start is there and every one
    that is there is "active"; an application known at the start that
    is gone at the look is not counted against it. *)
Theorem DeployBundleStep_is_skip_iff fuel s s1 :
  request_model env model s = (Return tt, s1) ->
  0 < elapsed env 1 ->
  (1 <= fuel)%nat ->
  exists b : bool,
    JujuSteps.DeployBundleStep_is_skip env fuel model s
    = Some (Return b, later s1 0 [Sleep 1])
    /\ (b = true <->
        (exists a status,
            a ∈ dom (applications env model 0)
            /\ applications env model 1 !! a = Some status)
        /\ (forall a status,
              a ∈ dom (applications env model 0) ->
              applications env model 1 !! a = Some status ->
              status = "active")).
Proof.
  intros Hreq Hclock Hfuel. unfold JujuSteps.DeployBundleStep_is_skip.
  rewrite (get_model_status_unfold env model 0 _ _ _ Hreq).
  destruct (poll_loop_leaves env model 0 0 0 ∅ ∅ fuel (looked_0 env model))
    as (st & -> & Hst).
  - intros j Hj. lia.
  - right. simpl. lia.
  - lia.
  - simpl.
    assert (forall a status,
               st !! a = Some status <->
               a ∈ dom (applications env model 0)
               /\ applications env model 1 !! a = Some status) as Hlook.
    { intros a status. rewrite (Hst a). case_decide as Ha; simpl.
      - destruct (applications env model 1 !! a) as [seen|].
        + split; [intros Hs; by split | by intros [_ Hs]].
        + split; [done | by intros [_ Hs]].
      - split; [done | by intros [Hin _]]. }
    case_bool_decide as Hempty.
    + exists false. split; [done|]. split; [done|].
      intros [(a & status & Ha & Hs) _].
      assert (st !! a = Some status) as Hsa by (by apply Hlook).
      by rewrite Hempty, lookup_empty in Hsa.
    + eexists. split; [done|]. rewrite forallb_forall. split.
      * intros Hall. split.
        -- destruct (map_choose st Hempty) as (a & status & Hsa).
           exists a, status. by apply Hlook.
        -- intros a status Ha Hs.
           assert (st !! a = Some status) as Hsa by (by apply Hlook).
           apply elem_of_map_to_list, list_elem_of_In in Hsa.
           apply Hall in Hsa. simpl in Hsa. by apply bool_decide_eq_true in Hsa.
      * intros [_ Hall] [a status] Hin.
        apply list_elem_of_In, elem_of_map_to_list, Hlook in Hin as [Ha Hs].
        simpl. apply bool_decide_eq_true. by eapply Hall.
Qed.

(** X21.  [ModelStatusStep.run] never returns FAILED and never raises:
    [get_model_status] takes every exception itself, so the step
    returns COMPLETED with one line per entry of the mapping, and with
    no line at all when the model could not be had. *)
Theorem ModelStatusStep_run_always_completed order fuel timeout s o s' :
  JujuSteps.ModelStatusStep_run env order fuel model timeout s
  = Some (o, s') ->
  exists lines,
    o = Return (MkResult COMPLETED (MList lines))
    /\ (forall e s1, request_model env model s = (Raise e, s1) -> lines = []).
Proof.
  unfold JujuSteps.ModelStatusStep_run.
  destruct (get_model_status env fuel model timeout s) as [[o0 s0]|] eqn:Hget;
    [|discriminate].
  destruct (get_model_status_returns _ _ _ _ _ _ _ Hget) as [apps_status ->].
  intros [= <- <-]. eexists. split; [done|].
  intros e s1 Hreq.
  unfold get_model_status in Hget. unfold request_model in Hreq.
  rewrite Hreq, isinstance_Exception in Hget.
  injection Hget as <- _.
  pose proof (JujuSteps.items_of_perm order ∅) as Hperm.
  rewrite map_to_list_empty in Hperm. apply Permutation_nil_r in Hperm.
  by rewrite Hperm.
Qed.

End StatusMore.

Lemma get_model_status_without_model_witness :
  Juju.get_model_status MoreExamples.unreachable_env 0 "openstack" 5
                        Juju.JujuHelper
  = Some (Return ∅,
          {| Juju.controller := Some Juju.ControllerObject;
             Juju.list_calls := 0;
             Juju.events := [Juju.Connect] |}).
Proof.
  apply (get_model_status_without_model MoreExamples.unreachable_env
           "openstack" 0 5 Juju.JujuHelper
           (MkExc Exception "connection refused")).
  reflexivity.
Defined.

Lemma get_model_status_sound_witness :
  exists n,
    (1 <= n <= 3)%nat
    /\ {| Juju.controller := Some Juju.ControllerObject;
          Juju.list_calls := 0;
          Juju.events := [Juju.Connect; Juju.GetModel "openstack";
                          Juju.Sleep 1] |}
       = Observed.later
           {| Juju.controller := Some Juju.ControllerObject;
              Juju.list_calls := 0;
              Juju.events := [Juju.Connect; Juju.GetModel "openstack"] |}
           0 (replicate n (Juju.Sleep 1))
    /\ Observed.stops_at Examples.waiting_env "openstack" 0 n
    /\ (forall j, (1 <= j < n)%nat ->
                  ~ Observed.stops_at Examples.waiting_env "openstack" 0 j)
    /\ Observed.status_after Examples.waiting_env "openstack" n
         {[ "keystone" := "waiting"; "mysql" := "maintenance" ]}
    /\ dom ({[ "keystone" := "waiting"; "mysql" := "maintenance" ]}
            : gmap string string)
       ⊆ dom (Juju.applications Examples.waiting_env "openstack" 0).
Proof.
  apply (get_model_status_sound Examples.waiting_env "openstack" 3 0
           Juju.JujuHelper).
  - reflexivity.
  - vm_compute. reflexivity.
Defined.

Lemma get_model_status_no_applications_witness :
  Juju.get_model_status Examples.stuck_env 1 "openstack" 600 Juju.JujuHelper
  = Some (Return ∅,
          Observed.later
            {| Juju.controller := Some Juju.ControllerObject;
               Juju.list_calls := 0;
               Juju.events := [Juju.Connect; Juju.GetModel "openstack"] |}
            0 [Juju.Sleep 1]).
Proof.
  apply (get_model_status_no_applications Examples.stuck_env "openstack"
           1 600 Juju.JujuHelper).
  - reflexivity.
  - reflexivity.
  - lia.
Defined.

Lemma DeployBundleStep_is_skip_iff_witness :
  exists b : bool,
    JujuSteps.DeployBundleStep_is_skip Examples.waiting_env 3 "openstack"
                                       Juju.JujuHelper
    = Some (Return b,
            Observed.later
              {| Juju.controller := Some Juju.ControllerObject;
                 Juju.list_calls := 0;
                 Juju.events := [Juju.Connect; Juju.GetModel "openstack"] |}
              0 [Juju.Sleep 1])
    /\ (b = true <->
        (exists a status,
            a ∈ dom (Juju.applications Examples.waiting_env "openstack" 0)
            /\ Juju.applications Examples.waiting_env "openstack" 1 !! a
               = Some status)
        /\ (forall a status,
              a ∈ dom (Juju.applications Examples.waiting_env "openstack" 0) ->
              Juju.applications Examples.waiting_env "openstack" 1 !! a
              = Some status ->
              status = "active")).
Proof.
  apply (DeployBundleStep_is_skip_iff Examples.waiting_env "openstack" 3
           Juju.JujuHelper).
  - reflexivity.
  - vm_compute. reflexivity.
  - lia.
Defined.

Lemma ModelStatusStep_run_always_completed_witness :
  exists lines,
    Return (MkResult COMPLETED (MList []))
    = Return (MkResult COMPLETED (MList lines))
    /\ (forall e s1,
          Observed.request_model MoreExamples.unreachable_env "openstack"
                                 Juju.JujuHelper = (Raise e, s1) ->
          lines = []).
Proof.
  apply (ModelStatusStep_run_always_completed MoreExamples.unreachable_env
           "openstack" MoreExamples.key_order 3 5 Juju.JujuHelper _
           {| Juju.controller := Some Juju.ControllerObject;
              Juju.list_calls := 0;
              Juju.events := [Juju.Connect] |}).
  vm_compute. reflexivity.
Defined.

(** ** More on the steps ([juju.py], [bootstrap.py]) *)

Section StepsMore.
Import Juju JujuSteps.

(** X22.  [WriteModelStatusStep.run] never raises.  It returns
    COMPLETED "Inspecting Model Status" when the connection (made
    only when the helper holds no controller), [get_model],
    [get_status] and the writing of that status to the file all
    returned; otherwise it returns FAILED with [str(e)] of the
    exception [e] that the first of these calls to fail raised. *)
Theorem WriteModelStatusStep_run_never_raises env host model file_path
        timeout s :
  exists r s',
    WriteModelStatusStep_run env host model file_path timeout s
    = (Return r, s')
    /\ ((r = MkResult COMPLETED (MStr "Inspecting Model Status")
         /\ (controller s = None -> connect env = Return tt)
         /\ get_model env model = Return tt
         /\ exists status,
             get_status env model = Return status
             /\ dump_status host status file_path = Return tt)
        \/ exists e,
            r = MkResult FAILED (MStr (exc_str e))
            /\ ((controller s = None /\ connect env = Raise e)
                \/ ((controller s = None -> connect env = Return tt)
                    /\ (get_model env model = Raise e
                        \/ (get_model env model = Return tt
                            /\ (get_status env model = Raise e
                                \/ exists status,
                                    get_status env model = Return status
                                    /\ dump_status host status file_path
                                       = Raise e)))))).
Proof.
  unfold WriteModelStatusStep_run, try_except, get_model_status_full,
    ensure_controller, bind, ret, await.
  destruct (controller s) as [c|] eqn:Hc.
  - destruct (get_model env model) as [[]|e] eqn:Hmodel.
    + destruct (get_status env model) as [status|e] eqn:Hstatus.
      * destruct (dump_status host status file_path) as [[]|e] eqn:Hdump.
        -- eexists _, _. split; [reflexivity|]. left.
           split; [done|]. split; [done|]. split; [done|]. by exists status.
        -- rewrite isinstance_Exception. eexists _, _.
           split; [reflexivity|]. right. exists e. split; [done|]. right.
           split; [done|]. right. split; [done|]. right. by exists status.
      * rewrite isinstance_Exception. eexists _, _.
        split; [reflexivity|]. right. exists e. split; [done|]. right.
        split; [done|]. right. split; [done|]. by left.
    + rewrite isinstance_Exception. eexists _, _.
      split; [reflexivity|]. right. exists e. split; [done|]. right.
      split; [done|]. by left.
  - destruct (connect env) as [[]|e] eqn:Hconnect.
    + destruct (get_model env model) as [[]|e] eqn:Hmodel.
      * destruct (get_status env model) as [status|e] eqn:Hstatus.
        -- destruct (dump_status host status file_path) as [[]|e] eqn:Hdump.
           ++ eexists _, _. split; [reflexivity|]. left.
              split; [done|]. split; [done|]. split; [done|]. by exists status.
           ++ rewrite isinstance_Exception. eexists _, _.
              split; [reflexivity|]. right. exists e. split; [done|]. right.
              split; [done|]. right. split; [done|]. right. by exists status.
        -- rewrite isinstance_Exception. eexists _, _.
           split; [reflexivity|]. right. exists e. split; [done|]. right.
           split; [done|]. right. split; [done|]. by left.
      * rewrite isinstance_Exception. eexists _, _.
        split; [reflexivity|]. right. exists e. split; [done|]. right.
        split; [done|]. by left.
    + rewrite isinstance_Exception. eexists _, _.
      split; [reflexivity|]. right. exists e. split; [done|]. by left.
Qed.

(** X23.  Whenever [DeployControlPlaneStep.run] of [bootstrap.py]
    returns a result, [write_tfvars] has returned, and the result is
    COMPLETED, after [apply()] and the wait for the model both
    returned, or FAILED with [str(e)] of a [TerraformException] that
    [apply()] raised (the helper is then not touched) or that the wait
    raised; every other exception leaves the step. *)
Theorem DeployControlPlaneStep_run_result env tfhelper model cloud s r s' :
  Bootstrap.DeployControlPlaneStep_run env tfhelper model cloud s
  = (Return r, s') ->
  Bootstrap.write_tfvars tfhelper model cloud = Return tt
  /\ ((r = MkResult COMPLETED MNone
       /\ Bootstrap.apply tfhelper = Return tt
       /\ wait_until_active env model s = (Return tt, s'))
      \/ exists e,
          isinstance e TerraformException = true
          /\ r = MkResult FAILED (MStr (exc_str e))
          /\ ((Bootstrap.apply tfhelper = Raise e /\ s' = s)
              \/ (Bootstrap.apply tfhelper = Return tt
                  /\ wait_until_active env model s = (Raise e, s')))).
Proof.
  unfold Bootstrap.DeployControlPlaneStep_run.
  destruct (Bootstrap.write_tfvars tfhelper model cloud) as [[]|e0];
    [|discriminate].
  unfold try_except, bind, ret.
  destruct (Bootstrap.apply tfhelper) as [[]|e0].
  - destruct (wait_until_active env model s) as [[[]|e1] s1].
    + intros [= <- <-]. split; [done|]. by left.
    + destruct (isinstance e1 TerraformException) eqn:Hcls; [|discriminate].
      intros [= <- <-]. split; [done|]. right. exists e1.
      split; [done|]. split; [done|]. by right.
  - destruct (isinstance e0 TerraformException) eqn:Hcls; [|discriminate].
    intros [= <- <-]. split; [done|]. right. exists e0.
    split; [done|]. split; [done|]. by left.
Qed.

Lemma DeployControlPlaneStep_run_result_witness :
  Bootstrap.write_tfvars Examples.sample_tfhelper "openstack" "microk8s"
  = Return tt
  /\ ((MkResult FAILED (MStr "terraform apply failed")
       = MkResult COMPLETED MNone
       /\ Bootstrap.apply Examples.sample_tfhelper = Return tt
       /\ wait_until_active Examples.refusing_env "openstack" JujuHelper
          = (Return tt, JujuHelper))
      \/ exists e,
          isinstance e TerraformException = true
          /\ MkResult FAILED (MStr "terraform apply failed")
             = MkResult FAILED (MStr (exc_str e))
          /\ ((Bootstrap.apply Examples.sample_tfhelper = Raise e
               /\ JujuHelper = JujuHelper)
              \/ (Bootstrap.apply Examples.sample_tfhelper = Return tt
                  /\ wait_until_active Examples.refusing_env "openstack"
                                       JujuHelper
                     = (Raise e, JujuHelper)))).
Proof.
  apply (DeployControlPlaneStep_run_result Examples.refusing_env
           Examples.sample_tfhelper "openstack" "microk8s" JujuHelper).
  reflexivity.
Defined.

Lemma k8s_clouds_of_typed clouds :
  (forall name details,
      (name, details) ∈ clouds -> is_Some (details !! "type")) ->
  k8s_clouds_of clouds
  = Return (filter (fun c => c.2 !! "type" = Some "k8s") clouds).*1.
Proof.
  induction clouds as [|[name details] rest IH]; intros Htyped; [done|].
  simpl. destruct (Htyped name details) as [ty Hty]; [by left|].
  rewrite Hty, IH by (intros n d Hin; apply (Htyped n d); by right).
  rewrite filter_cons. simpl. rewrite Hty.
  case_bool_decide as Hk8s.
  - subst ty. by rewrite decide_True.
  - rewrite decide_False; [done|]. by intros [= ->].
Qed.

Lemma k8s_clouds_of_untyped clouds :
  (exists name details, (name, details) ∈ clouds /\ details !! "type" = None) ->
  k8s_clouds_of clouds = Raise (MkExc KeyError "'type'").
Proof.
  induction clouds as [|[name details] rest IH];
    intros (n & d & Hin & Hnone).
  - by apply elem_of_nil in Hin.
  - simpl. destruct (details !! "type") as [ty|] eqn:Hty; [|done].
    rewrite IH; [done|]. exists n, d. split; [|done].
    apply elem_of_cons in Hin as [[= -> ->] | Hin]; [congruence | done].
Qed.

(** X24.  [BootstrapJujuStep.run], once [juju clouds] has answered: a
    cloud without a [type] raises [KeyError], which the step does not
    catch; when every cloud has one, the step returns FAILED "Could
    not find any k8s clouds to bootstrap" if no cloud is of type
    [k8s], FAILED naming the cloud if there are k8s clouds but the one
    asked for is not among them, and only otherwise runs
    [juju bootstrap]. *)
Theorem BootstrapJujuStep_run_clouds host cloud clouds :
  juju_clouds host = Return clouds ->
  ((exists name details,
       (name, details) ∈ clouds /\ details !! "type" = None) ->
   BootstrapJujuStep_run host cloud = Raise (MkExc KeyError "'type'"))
  /\ ((forall name details,
          (name, details) ∈ clouds -> is_Some (details !! "type")) ->
      let k8s_clouds :=
        (filter (fun c => c.2 !! "type" = Some "k8s") clouds).*1 in
      (k8s_clouds = [] ->
       BootstrapJujuStep_run host cloud
       = Return (MkResult FAILED
                   (MStr "Could not find any k8s clouds to bootstrap")))
      /\ (k8s_clouds <> [] -> cloud ∉ k8s_clouds ->
          BootstrapJujuStep_run host cloud
          = Return (MkResult FAILED
                      (MStr ("Could not find " +:+ cloud
                             +:+ " cloud to bootstrap"))))
      /\ (cloud ∈ k8s_clouds ->
          forall r, BootstrapJujuStep_run host cloud = Return r ->
                    result_type r = COMPLETED ->
                    exists cmd, subprocess_run host cmd = Return tt
                                /\ take 3 cmd = [juju_binary host;
                                                 "bootstrap"; cloud])).
Proof.
  intros Hclouds. unfold BootstrapJujuStep_run. rewrite Hclouds. split.
  - intros Huntyped. by rewrite k8s_clouds_of_untyped.
  - intros Htyped. cbv zeta. rewrite k8s_clouds_of_typed by done.
    set (k8s_clouds := (filter _ clouds).*1). split; [|split].
    + intros ->. done.
    + intros Hsome Hnot. rewrite bool_decide_false by done.
      by rewrite bool_decide_true.
    + intros Hin r.
      rewrite bool_decide_false by (intros Heq; rewrite Heq in Hin;
                                    by apply elem_of_nil in Hin).
      rewrite bool_decide_false by (intros Hnot; by apply Hnot).
      destruct (subprocess_run host _) as [[]|e] eqn:Hsub.
      * intros _ _. eexists. split; [exact Hsub | done].
      * destruct (isinstance e CalledProcessError); [|discriminate].
        intros [= <-] Hr. discriminate Hr.
Qed.

Lemma BootstrapJujuStep_run_clouds_witness :
  BootstrapJujuStep_run MoreExamples.untyped_host "microk8s"
  = Raise (MkExc KeyError "'type'")
  /\ BootstrapJujuStep_run MoreExamples.two_cloud_host "aks"
     = Return (MkResult FAILED (MStr "Could not find aks cloud to bootstrap")).
Proof.
  split.
  - apply (proj1 (BootstrapJujuStep_run_clouds MoreExamples.untyped_host
                    "microk8s" _ eq_refl)).
    exists "broken", {[ "description" := "no type here" ]}.
    split; [|reflexivity]. apply list_elem_of_further, list_elem_of_here.
  - apply (proj2 (BootstrapJujuStep_run_clouds MoreExamples.two_cloud_host
                    "aks" _ eq_refl)).
    + intros name details Hin.
      repeat (apply elem_of_cons in Hin as [[= -> ->] | Hin];
              [by eexists|]).
      by apply elem_of_nil in Hin.
    + vm_compute. discriminate.
    + apply (bool_decide_unpack _). vm_compute. exact I.
Defined.

End StepsMore.

(** ** [BootstrapJujuStep.is_skip] and [run_action] ([juju.py]) *)

Section SkipAndAction.
Import Juju JujuSteps JujuMore.

Lemma existing_controllers_of_sound k8s_clouds controllers names :
  existing_controllers_of k8s_clouds controllers = Return names ->
  forall name, name ∈ names ->
    exists details cloud,
      (name, details) ∈ controllers
      /\ details !! "cloud" = Some cloud
      /\ cloud ∈ k8s_clouds.
Proof.
  revert names. induction controllers as [|[n d] rest IH]; intros names; simpl.
  - intros [= <-] name Hin. by apply elem_of_nil in Hin.
  - destruct (d !! "cloud") as [cloud|] eqn:Hcloud; [|discriminate].
    destruct (existing_controllers_of k8s_clouds rest) as [found|e];
      [|discriminate].
    intros [= <-] name Hin.
    assert (name ∈ found -> exists details cloud0,
               (name, details) ∈ (n, d) :: rest
               /\ details !! "cloud" = Some cloud0 /\ cloud0 ∈ k8s_clouds)
      as Hrest.
    { intros Hfound. destruct (IH found eq_refl name Hfound)
        as (details & cloud0 & Hin0 & Hc & Hk).
      exists details, cloud0. split; [by right | done]. }
    case_bool_decide as Hk8s; [|by apply Hrest].
    apply elem_of_cons in Hin as [-> | Hin]; [|by apply Hrest].
    exists d, cloud. split; [by left | done].
Qed.

(** X25.  [BootstrapJujuStep.is_skip]: a [CalledProcessError] never
    leaves it (one raised by [juju clouds] or [juju controllers] gives
    [False]); when the step answers [True], [self.controller_name] is
    the name of a controller that [juju controllers] lists on a cloud
    of type [k8s]; in every other case the attribute is not
    changed. *)
Theorem BootstrapJujuStep_is_skip_controller host juju_controllers
        controller_name o name' :
  BootstrapJujuStep_is_skip host juju_controllers controller_name
  = (o, name') ->
  (o = Return true ->
   exists clouds k8s_clouds controllers name details cloud,
     juju_clouds host = Return clouds
     /\ k8s_clouds_of clouds = Return k8s_clouds
     /\ juju_controllers = Return (Some controllers)
     /\ name' = Some name
     /\ (name, details) ∈ controllers
     /\ details !! "cloud" = Some cloud
     /\ cloud ∈ k8s_clouds)
  /\ (o <> Return true -> name' = controller_name)
  /\ (forall e, o = Raise e -> isinstance e CalledProcessError = false).
Proof.
  unfold BootstrapJujuStep_is_skip.
  destruct (juju_clouds host) as [clouds|e0] eqn:Hclouds.
  2:{ destruct (isinstance e0 CalledProcessError) eqn:Hcls;
        intros [= <- <-]; (split; [discriminate|]); (split; [done|]).
      - intros e He. discriminate He.
      - intros e [= <-]. exact Hcls. }
  destruct (k8s_clouds_of clouds) as [k8s_clouds|e0] eqn:Hk8s.
  2:{ destruct (isinstance e0 CalledProcessError) eqn:Hcls;
        intros [= <- <-]; (split; [discriminate|]); (split; [done|]).
      - intros e He. discriminate He.
      - intros e [= <-]. exact Hcls. }
  destruct juju_controllers as [found|e0] eqn:Hcontrollers.
  2:{ destruct (isinstance e0 CalledProcessError) eqn:Hcls;
        intros [= <- <-]; (split; [discriminate|]); (split; [done|]).
      - intros e He. discriminate He.
      - intros e [= <-]. exact Hcls. }
  case_bool_decide as Hempty.
  { intros [= <- <-]. split; [discriminate|]. split; [done|].
    intros e He. discriminate He. }
  destruct found as [controllers|]; [|done]. simpl in *.
  destruct (existing_controllers_of k8s_clouds controllers)
    as [[|first rest]|e0] eqn:Hexisting.
  - intros [= <- <-]. split; [discriminate|]. split; [done|].
    intros e He. discriminate He.
  - intros [= <- <-]. split; [|split; [done|intros e He; discriminate He]].
    intros _.
    destruct (existing_controllers_of_sound _ _ _ Hexisting first)
      as (details & cloud & Hin & Hcloud & Hk); [by left|].
    by exists clouds, k8s_clouds, controllers, first, details, cloud.
  - destruct (isinstance e0 CalledProcessError) eqn:Hcls;
      intros [= <- <-]; (split; [discriminate|]); (split; [done|]).
    + intros e He. discriminate He.
    + intros e [= <-]. exact Hcls.
Qed.

Lemma BootstrapJujuStep_is_skip_controller_witness :
  exists clouds k8s_clouds controllers name details cloud,
    juju_clouds MoreExamples.two_cloud_host = Return clouds
    /\ k8s_clouds_of clouds = Return k8s_clouds
    /\ MoreExamples.two_controllers = Return (Some controllers)
    /\ Some "k8s-controller" = Some name
    /\ (name, details) ∈ controllers
    /\ details !! "cloud" = Some cloud
    /\ cloud ∈ k8s_clouds.
Proof.
  apply (proj1 (BootstrapJujuStep_is_skip_controller
                  MoreExamples.two_cloud_host
                  MoreExamples.two_controllers None
                  (Return true) (Some "k8s-controller")
                  ltac:(vm_compute; reflexivity))).
  reflexivity.
Defined.

(** X26.  The leader loop of [run_action] stops at the first unit
    that reports to be the leader: the units after it are not asked,
    so whatever asking them would do, even raise, does not matter. *)
Theorem find_leader_first actions before unit after :
  (forall u, u ∈ before -> is_leader_from_status actions u = Return false) ->
  is_leader_from_status actions unit = Return true ->
  find_leader actions (before ++ unit :: after) = Return (Some unit).
Proof.
  intros Hbefore Hunit. induction before as [|u before IH]; simpl.
  - by rewrite Hunit.
  - rewrite (Hbefore u) by (by left). apply IH.
    intros u' Hin. apply Hbefore. by right.
Qed.

Lemma find_leader_first_witness :
  find_leader MoreExamples.keystone_actions
              (["keystone/0"] ++ "keystone/1" :: ["keystone/2"])
  = Return (Some "keystone/1").
Proof.
  apply find_leader_first.
  - intros u Hin. apply elem_of_cons in Hin as [-> | Hin]; [reflexivity|].
    by apply elem_of_nil in Hin.
  - reflexivity.
Defined.

(** X27.  [run_action] never raises.  It returns the results of the
    action only when the application is there, one of its units
    reported to be the leader and the action on that unit, with the
    name and parameters given, returned them; when the application is
    not there, no unit is the leader, or any call raises, it returns
    the empty mapping. *)
Theorem run_action_results env actions model app action_name action_params s :
  exists action_result s',
    run_action env actions model app action_name action_params s
    = (Return action_result, s')
    /\ (action_result <> ∅ ->
        exists us unit,
          units actions model app = Some us
          /\ find_leader actions us = Return (Some unit)
          /\ run_unit_action actions unit action_name action_params
             = Return action_result)
    /\ (units actions model app = None -> action_result = ∅).
Proof.
  unfold run_action, try_except, bind, ret.
  destruct (ensure_controller env s) as [[[]|e] s0].
  2:{ rewrite isinstance_Exception. by eexists _, _. }
  destruct (await (GetModel model) (get_model env model) s0) as [[[]|e] s1].
  2:{ rewrite isinstance_Exception. by eexists _, _. }
  destruct (units actions model app) as [us|] eqn:Hunits.
  2:{ rewrite isinstance_Exception. by eexists _, _. }
  destruct (find_leader actions us) as [[unit|]|e] eqn:Hleader.
  - destruct (run_unit_action actions unit action_name action_params)
      as [result|e] eqn:Haction.
    + exists result, s1. split; [done|]. split; [|done].
      intros _. by exists us, unit.
    + rewrite isinstance_Exception. by eexists _, _.
  - by eexists _, _.
  - rewrite isinstance_Exception. by eexists _, _.
Qed.

End SkipAndAction.
